(** * Data checks and basic cleaning of the short-term rental pipeline

    A shallow embedding of [src/data_check/test_data.py] (the six data
    checks) and of the filtering part of [src/basic_cleaning/run.py] (the
    function [go]), with the properties of the checks proved over it.

    Numeric cells are IEEE binary64 values (Rocq's primitive floats), so
    that the comparisons of [Series.between] are the ones pandas performs,
    [NaN] included.  The divergence of the similarity check needs a
    logarithm and is modelled over the real numbers extended with the two
    infinities and [NaN]. *)

From Stdlib Require Import List String Ascii ZArith Bool Lia Floats.
From Stdlib Require Import Reals Lra Permutation.
Import ListNotations.

Local Open Scope string_scope.
Local Open Scope list_scope.

(** ** Exceptions as [option] *)

Definition bind {A B : Type} (m : option A) (f : A -> option B) : option B :=
  match m with
  | Some a => f a
  | None => None
  end.

Notation "x <- m ;; k" := (bind m (fun x => k))
  (at level 61, m at next level, right associativity).

Fixpoint mapM {A B : Type} (f : A -> option B) (l : list A) : option (list B) :=
  match l with
  | [] => Some []
  | a :: t => b <- f a ;; bs <- mapM f t ;; Some (b :: bs)
  end.

(** ** Cells, rows and frames *)

(** A cell of a frame read from CSV: a string, a float64 (the null of
    pandas is the float [NaN], also inside a column of strings), or a
    timestamp in nanoseconds ([None] is [NaT]), which only [pd.to_datetime]
    produces. *)
Inductive cell : Type :=
| CStr (s : string)
| CNum (x : float)
| CTime (t : option Z).

(** [pd.isna] on one cell. *)
Definition isna (c : cell) : bool :=
  match c with
  | CStr _ => false
  | CNum x => is_nan x
  | CTime t => match t with Some _ => false | None => true end
  end.

(** A row gives a cell for every column label. *)
Definition Row : Type := string -> cell.

(** A frame: the ordered column labels and the rows.  Every frame of the
    pipeline comes from [pd.read_csv], which makes the labels distinct, so
    a label selects at most one column. *)
Record DataFrame : Type := mkFrame {
  columns : list string;
  rows : list Row
}.

(** [data.shape[0]] *)
Definition shape0 (data : DataFrame) : Z := Z.of_nat (List.length (rows data)).

(** [data[name]]: the Series of a column, [None] for the [KeyError] of an
    absent label. *)
Definition getitem (data : DataFrame) (name : string) : option (list cell) :=
  if in_dec string_dec name (columns data)
  then Some (map (fun r : Row => r name) (rows data))
  else None.

(** [df[mask]]: boolean indexing keeps the rows whose mask entry is [True]. *)
Fixpoint mask_filter {A : Type} (mask : list bool) (l : list A) : list A :=
  match mask, l with
  | b :: mask', a :: l' => if b then a :: mask_filter mask' l' else mask_filter mask' l'
  | _, _ => []
  end.

Definition loc (data : DataFrame) (mask : list bool) : DataFrame :=
  mkFrame (columns data) (mask_filter mask (rows data)).

(** [df[name] = values] for a label the frame already has: every row gets
    its new cell; a length mismatch raises. *)
Definition set_cell (r : Row) (name : string) (c : cell) : Row :=
  fun k => if String.eqb k name then c else r k.

Fixpoint set_cells (name : string) (rs : list Row) (vs : list cell) : option (list Row) :=
  match rs, vs with
  | [], [] => Some []
  | r :: rs', v :: vs' => t <- set_cells name rs' vs' ;; Some (set_cell r name v :: t)
  | _, _ => None
  end.

Definition setitem (data : DataFrame) (name : string) (vs : list cell) : option DataFrame :=
  rs <- set_cells name (rows data) vs ;; Some (mkFrame (columns data) rs).

(** ** Series operations *)

(** [Series.between(left, right)] is [(series >= left) & (series <= right)],
    both ends included; comparing a string or a timestamp with a float
    raises [TypeError]. *)
Definition between1 (left right : float) (c : cell) : option bool :=
  match c with
  | CNum x => Some (PrimFloat.leb left x && PrimFloat.leb x right)
  | _ => None
  end.

Definition between (s : list cell) (left right : float) : option (list bool) :=
  mapM (between1 left right) s.

(** [a & b] on two boolean Series of one frame. *)
Fixpoint series_and (a b : list bool) : list bool :=
  match a, b with
  | x :: a', y :: b' => (x && y) :: series_and a' b'
  | _, _ => []
  end.

(** [~idx] and [np.sum] of a boolean array. *)
Definition invert (idx : list bool) : list bool := map negb idx.

Fixpoint np_sum (idx : list bool) : Z :=
  match idx with
  | [] => 0
  | b :: t => (if b then 1 else 0) + np_sum t
  end%Z.

(** [Series.all()] *)
Definition all (idx : list bool) : bool := forallb (fun b => b) idx.

(** ** Outcome of a check *)

(** A check passes, fails its [assert], or stops on another exception. *)
Inductive outcome : Type :=
| Passed
| AssertionFailed
| Raised.

Definition check (m : option bool) : outcome :=
  match m with
  | Some true => Passed
  | Some false => AssertionFailed
  | None => Raised
  end.

(** ** The checks of [test_data.py] *)

Definition expected_colums : list string :=
  [ "id"; "name"; "host_id"; "host_name"; "neighbourhood_group";
    "neighbourhood"; "latitude"; "longitude"; "room_type"; "price";
    "minimum_nights"; "number_of_reviews"; "last_review";
    "reviews_per_month"; "calculated_host_listings_count";
    "availability_365" ].

(** [==] on two Python lists of strings. *)
Fixpoint list_eqb (a b : list string) : bool :=
  match a, b with
  | [], [] => true
  | x :: a', y :: b' => String.eqb x y && list_eqb a' b'
  | _, _ => false
  end.

Definition test_column_names (data : DataFrame) : outcome :=
  let these_columns := columns data in
  check (Some (list_eqb expected_colums these_columns)).

Definition test_row_count (data : DataFrame) : outcome :=
  check (Some ((15000 <? shape0 data)%Z && (shape0 data <? 1000000)%Z)).

Definition test_price_range (data : DataFrame) (min_price max_price : float) : outcome :=
  check (price <- getitem data "price" ;;
         idx <- between price min_price max_price ;;
         Some (all idx)).

Definition lon_min : float := (-74.25)%float.
Definition lon_max : float := (-73.50)%float.
Definition lat_min : float := 40.5%float.
#[warnings="-inexact-float"]
Definition lat_max : float := 41.2%float.

(** The mask [idx] of [test_proper_boundaries] and of the second filter of
    [go]. *)
Definition boundaries_mask (data : DataFrame) : option (list bool) :=
  lon <- getitem data "longitude" ;;
  a <- between lon lon_min lon_max ;;
  lat <- getitem data "latitude" ;;
  b <- between lat lat_min lat_max ;;
  Some (series_and a b).

(** [np.sum(~idx)], the number the assertion compares with 0. *)
Definition violations (data : DataFrame) : option Z :=
  idx <- boundaries_mask data ;; Some (np_sum (invert idx)).

Definition test_proper_boundaries (data : DataFrame) : outcome :=
  check (n <- violations data ;; Some (n =? 0)%Z).

(** *** Categories *)

Definition known_names : list string :=
  [ "Bronx"; "Brooklyn"; "Manhattan"; "Queens"; "Staten Island" ].

(** Equality of two cells as the hash tables of pandas and the sets of
    Python see it: a string never equals a number, and the nulls of a
    column count as one value. *)
Definition cell_eqb (a b : cell) : bool :=
  match a, b with
  | CStr s, CStr t => String.eqb s t
  | CNum x, CNum y => PrimFloat.eqb x y || (is_nan x && is_nan y)
  | CTime (Some i), CTime (Some j) => Z.eqb i j
  | CTime None, CTime None => true
  | _, _ => false
  end.

(** [Series.unique()]: the distinct values in order of first appearance,
    the null among them when the column has one. *)
Fixpoint unique (s : list cell) : list cell :=
  match s with
  | [] => []
  | c :: t => c :: filter (fun d => negb (cell_eqb c d)) (unique t)
  end.

(** A Python [set] as the list of its members; [==] on sets is inclusion
    both ways. *)
Definition set_mem (c : cell) (s : list cell) : bool := existsb (cell_eqb c) s.

Definition set_eqb (a b : list cell) : bool :=
  forallb (fun c => set_mem c b) a && forallb (fun c => set_mem c a) b.

Definition test_neighborhood_names (data : DataFrame) : outcome :=
  check (col <- getitem data "neighbourhood_group" ;;
         let neigh := unique col in
         Some (set_eqb (map CStr known_names) neigh)).

(** *** Distribution of the categories *)

(** [Series.value_counts()]: one entry per distinct value, nulls dropped
    ([dropna=True]), with its number of occurrences.  The order of the
    entries is immaterial here, [sort_index] follows. *)
Definition dropna (s : list cell) : list cell := filter (fun c => negb (isna c)) s.

Definition occurrences (c : cell) (s : list cell) : nat :=
  List.length (filter (cell_eqb c) s).

Definition value_counts (s : list cell) : list (cell * nat) :=
  map (fun c => (c, occurrences c s)) (unique (dropna s)).

(** Order of two labels; labels of different kinds do not compare
    ([TypeError]). *)
Definition cell_leb (a b : cell) : option bool :=
  match a, b with
  | CStr s, CStr t => Some (String.leb s t)
  | CNum x, CNum y => Some (PrimFloat.leb x y)
  | CTime (Some i), CTime (Some j) => Some (i <=? j)%Z
  | _, _ => None
  end.

(** [Series.sort_index()]: the entries in increasing order of label. *)
Fixpoint insert_entry (e : cell * nat) (l : list (cell * nat)) : option (list (cell * nat)) :=
  match l with
  | [] => Some [e]
  | f :: t =>
      b <- cell_leb (fst e) (fst f) ;;
      if b then Some (e :: l) else (t' <- insert_entry e t ;; Some (f :: t'))
  end.

Fixpoint sort_index (l : list (cell * nat)) : option (list (cell * nat)) :=
  match l with
  | [] => Some []
  | e :: t => s <- sort_index t ;; insert_entry e s
  end.

(** [np.asarray] of a Series of counts: the counts alone, as numbers; the
    labels are left behind. *)
Definition asarray (dist : list (cell * nat)) : list R := map (fun e => INR (snd e)) dist.

(** *** The divergence: [scipy.stats.entropy(pk, qk, base=2)] *)

(** A float in exact arithmetic: a real number, an infinity or [NaN]. *)
Inductive xreal : Type :=
| Fin (r : R)
| PInf
| NInf
| NaN.

(** [x / s] for two finite numbers; division by zero gives an infinity, or
    [NaN] for [0 / 0]. *)
Definition xdiv (x s : R) : xreal :=
  if Req_dec_T s 0
  then (if Req_dec_T x 0 then NaN else if Rlt_dec 0 x then PInf else NInf)
  else Fin (x / s).

Definition Rsum (v : list R) : R := fold_right Rplus 0%R v.

(** [1.0 * v / np.sum(v)] *)
Definition normalize (v : list R) : list xreal := map (fun x => xdiv x (Rsum v)) v.

(** [scipy.special.rel_entr]: [x log (x / y)] when [x > 0] and [y > 0],
    [0] when [x = 0] and [y >= 0], [inf] otherwise; [NaN] propagates. *)
Definition rel_entr (x y : xreal) : xreal :=
  match x, y with
  | NaN, _ | _, NaN => NaN
  | Fin a, Fin b =>
      if Rlt_dec 0 a
      then (if Rlt_dec 0 b then Fin (a * ln (a / b)) else PInf)
      else if Req_dec_T a 0
           then (if Rle_dec 0 b then Fin 0 else PInf)
           else PInf
  | Fin a, PInf =>
      if Rlt_dec 0 a then NInf else if Req_dec_T a 0 then Fin 0 else PInf
  | PInf, PInf => NaN
  | _, _ => PInf
  end.

Definition xadd (x y : xreal) : xreal :=
  match x, y with
  | NaN, _ | _, NaN => NaN
  | PInf, NInf | NInf, PInf => NaN
  | PInf, _ | _, PInf => PInf
  | NInf, _ | _, NInf => NInf
  | Fin a, Fin b => Fin (a + b)
  end.

Definition xsum (v : list xreal) : xreal := fold_right xadd (Fin 0) v.

(** [S / np.log(base)] for a base above 1. *)
Definition xscale (x : xreal) (d : R) : xreal :=
  match x with
  | Fin a => Fin (a / d)
  | _ => x
  end.

(** [a < b] on floats: false as soon as one side is [NaN]. *)
Definition xltb (a b : xreal) : bool :=
  match a, b with
  | NaN, _ | _, NaN => false
  | PInf, _ | _, NInf => false
  | NInf, _ | _, PInf => true
  | Fin x, Fin y => if Rlt_dec x y then true else false
  end.

(** [np.broadcast_arrays] on two one-dimensional arrays: equal lengths, or
    one array of length 1 stretched to the other; [ValueError] otherwise. *)
Definition broadcast_arrays {A B : Type} (a : list A) (b : list B) : option (list A * list B) :=
  if (List.length a =? List.length b)%nat then Some (a, b)
  else match a, b with
       | [x], _ => Some (repeat x (List.length b), b)
       | _, [y] => Some (a, repeat y (List.length a))
       | _, _ => None
       end.

Fixpoint zip_with {A B C : Type} (f : A -> B -> C) (a : list A) (b : list B) : list C :=
  match a, b with
  | x :: a', y :: b' => f x y :: zip_with f a' b'
  | _, _ => []
  end.

(** The relative entropy of [pk] with respect to [qk]: both are divided by
    their sum, [pk] before the two are brought to one shape and [qk]
    after. *)
Definition entropy (pk qk : list R) (base : R) : option xreal :=
  let pk := normalize pk in
  pq <- broadcast_arrays pk qk ;;
  let qk := normalize (snd pq) in
  let vec := zip_with rel_entr (fst pq) qk in
  Some (xscale (xsum vec) (ln base)).

(** The divergence the similarity check computes from its two frames. *)
Definition divergence (data ref_data : DataFrame) : option xreal :=
  c1 <- getitem data "neighbourhood_group" ;;
  dist1 <- sort_index (value_counts c1) ;;
  c2 <- getitem ref_data "neighbourhood_group" ;;
  dist2 <- sort_index (value_counts c2) ;;
  entropy (asarray dist1) (asarray dist2) 2.

Definition test_similar_neigh_distrib (data ref_data : DataFrame) (kl_threshold : xreal) : outcome :=
  check (d <- divergence data ref_data ;; Some (xltb d kl_threshold)).

(** ** The cleaning step of [run.py] *)

(** The frame [go] writes to [clean_sample.csv], from the frame it read.
    [to_datetime] stands for [pd.to_datetime] on a Series ([None] when it
    raises); the artifact download and upload are left out. *)
Definition go (to_datetime : list cell -> option (list cell))
    (df : DataFrame) (min_price max_price : float) : option DataFrame :=
  price <- getitem df "price" ;;
  idx <- between price min_price max_price ;;
  let df := loc df idx in
  last_review <- getitem df "last_review" ;;
  converted <- to_datetime last_review ;;
  df <- setitem df "last_review" converted ;;
  lon <- getitem df "longitude" ;;
  a <- between lon lon_min lon_max ;;
  lat <- getitem df "latitude" ;;
  b <- between lat lat_min lat_max ;;
  let idv := series_and a b in
  Some (loc df idv).

(** ** Vocabulary of the properties *)

(** [x] lies in the closed interval from [left] to [right]. *)
Definition within (left right x : float) : Prop :=
  PrimFloat.leb left x = true /\ PrimFloat.leb x right = true.

(** The row has a numeric price within the bounds. *)
Definition price_within (min_price max_price : float) (r : Row) : Prop :=
  exists p, r "price" = CNum p /\ within min_price max_price p.

(** The row has numeric coordinates inside the box, as a proposition and
    as a decision. *)
Definition in_box (r : Row) : Prop :=
  exists lon lat,
    r "longitude" = CNum lon /\ r "latitude" = CNum lat /\
    within lon_min lon_max lon /\ within lat_min lat_max lat.

Definition in_boxb (r : Row) : bool :=
  match r "longitude", r "latitude" with
  | CNum lon, CNum lat =>
      (PrimFloat.leb lon_min lon && PrimFloat.leb lon lon_max) &&
      (PrimFloat.leb lat_min lat && PrimFloat.leb lat lat_max)
  | _, _ => false
  end.

(** The number of rows outside the box. *)
Definition rows_outside (data : DataFrame) : Z :=
  Z.of_nat (List.length (filter (fun r => negb (in_boxb r)) (rows data))).

(** Every cell of the column is a float. *)
Definition numeric_column (data : DataFrame) (name : string) : Prop :=
  In name (columns data) /\
  forall r, In r (rows data) -> exists x, r name = CNum x.

(** What [between] answers for one cell when it does not raise. *)
Definition betweenb (left right : float) (c : cell) : bool :=
  match c with
  | CNum x => PrimFloat.leb left x && PrimFloat.leb x right
  | _ => false
  end.

(** The label [s] occurs in the borough column. *)
Definition label_present (data : DataFrame) (s : string) : Prop :=
  exists r, In r (rows data) /\ r "neighbourhood_group" = CStr s.

(** The distinct values of the borough column, nulls set aside, are the
    known names. *)
Definition nonnull_values_match (data : DataFrame) : Prop :=
  forall c,
    (exists r, In r (rows data) /\ r "neighbourhood_group" = c /\ isna c = false) <->
    (exists s, c = CStr s /\ In s known_names).

(** One term of the Kullback-Leibler sum over the reals, with the
    convention that a zero [p] contributes nothing, and the sum. *)
Definition kl_term (p q : R) : R :=
  if Rlt_dec 0 p then (p * ln (p / q))%R else 0%R.

Definition kl (P Q : list R) : R := Rsum (zip_with kl_term P Q).

(** A target entry and a reference entry that go together: both
    non-negative, and the reference is zero only where the target is. *)
Definition compatible (p q : R) : Prop :=
  (0 <= p)%R /\ (0 <= q)%R /\ (q = 0%R -> p = 0%R).



(** The borough column exists and each of its cells is a string or a
    null, as in a frame read from CSV. *)
Definition label_column (data : DataFrame) : Prop :=
  In "neighbourhood_group" (columns data) /\
  forall r, In r (rows data) ->
    (exists s, r "neighbourhood_group" = CStr s) \/
    isna (r "neighbourhood_group") = true.

(** The number of distinct boroughs of a frame, nulls set aside. *)
Definition distinct_labels (data : DataFrame) : nat :=
  List.length
    (unique (dropna (map (fun r : Row => r "neighbourhood_group") (rows data)))).

(** An entry of a distribution whose label is a string. *)
Definition string_entry (e : cell * nat) : Prop := exists s, fst e = CStr s.

(** The rows the cleaning step keeps: a numeric price within the bounds and
    numeric coordinates inside the box. *)
Definition kept (min_price max_price : float) (r : Row) : bool :=
  betweenb min_price max_price (r "price") && in_boxb r.

(** [k] copies of a list one after the other, and a frame whose rows are
    [k] copies of the rows of another. *)
Fixpoint replicate {A : Type} (k : nat) (l : list A) : list A :=
  match k with
  | O => []
  | S k' => l ++ replicate k' l
  end.

Definition replicated (k : nat) (data : DataFrame) : DataFrame :=
  mkFrame (columns data) (replicate k (rows data)).

(** No cell of [a] equals [d]. *)
Definition notin (a : list cell) (d : cell) : bool :=
  forallb (fun c => negb (cell_eqb c d)) a.

(** An entry with its count multiplied by [k]. *)
Definition scale_entry (k : nat) (e : cell * nat) : cell * nat :=
  (fst e, (k * snd e)%nat).

(** A key that orders the binary64 values other than [NaN] as [<=] does:
    a class (the infinities, the two signs, zero), then exponent and
    mantissa. *)
Definition sf_key (f : spec_float) : Z * Z * Z :=
  match f with
  | S754_zero _ => (0, 0, 0)
  | S754_infinity true => (-2, 0, 0)
  | S754_infinity false => (2, 0, 0)
  | S754_nan => (0, 0, 0)
  | S754_finite true m e => (-1, - e, - Z.pos m)
  | S754_finite false m e => (1, e, Z.pos m)
  end%Z.

Definition key_le (a b : Z * Z * Z) : Prop :=
  match a, b with
  | (a1, a2, a3), (b1, b2, b3) =>
      (a1 < b1 \/ (a1 = b1 /\ (a2 < b2 \/ (a2 = b2 /\ a3 <= b3))))%Z
  end.

(** ** Sample frames *)

(** A listing with the given borough cell, coordinates and price; the other
    columns hold an empty string. *)
Definition listing (group : cell) (lat lon price : float) : Row :=
  fun k =>
    if String.eqb k "neighbourhood_group" then group
    else if String.eqb k "latitude" then CNum lat
    else if String.eqb k "longitude" then CNum lon
    else if String.eqb k "price" then CNum price
    else CStr "".

Definition frame_of (rs : list Row) : DataFrame := mkFrame expected_colums rs.

(** A frame of [n] copies of one listing. *)
Definition frame_of_size (n : Z) : DataFrame :=
  frame_of (repeat (listing (CStr "Queens") 40.75 (-73.875) 100) (Z.to_nat n)).

(** Two listings with prices at the ends of the range 10 to 500, and the
    same frame with a listing at 501 added. *)
Definition priced_frame : DataFrame :=
  frame_of [ listing (CStr "Bronx") 40.75 (-73.875) 10;
             listing (CStr "Queens") 40.75 (-73.875) 500 ].

Definition overpriced_frame : DataFrame :=
  frame_of (rows priced_frame ++ [ listing (CStr "Queens") 40.75 (-73.875) 501 ]).

(** A listing without latitude and price, and a frame that holds it. *)
Definition blank_listing : Row := listing (CStr "Queens") nan (-73.875) nan.

Definition blank_frame : DataFrame :=
  frame_of [ listing (CStr "Bronx") 40.75 (-73.875) 120; blank_listing ].

(** A raw frame for the cleaning step: one listing to keep, one too
    expensive, one outside the box and one without coordinates. *)
Definition raw_frame : DataFrame :=
  frame_of [ listing (CStr "Bronx") 40.75 (-73.875) 120;
             listing (CStr "Queens") 40.75 (-73.875) 9000;
             listing (CStr "Queens") 45 (-73.875) 120;
             listing (CStr "Brooklyn") nan nan 120 ].

(** A stand-in for [pd.to_datetime] that finds no date anywhere. *)
Definition all_NaT (s : list cell) : option (list cell) :=
  Some (map (fun _ => CTime None) s).

(** One listing per borough, and the same frame with a listing whose
    borough is missing. *)
Definition five_boroughs : list Row :=
  map (fun s => listing (CStr s) 40.75 (-73.875) 100) known_names.

Definition boroughs_frame : DataFrame := frame_of five_boroughs.

Definition boroughs_and_null_frame : DataFrame :=
  frame_of (five_boroughs ++ [ listing (CNum nan) 40.75 (-73.875) 100 ]).



(** ** Facts on float comparison *)

Lemma SFcompare_refl (f : spec_float) :
  f <> S754_nan -> SFcompare f f = Some Eq.
Proof.
  destruct f as [s | s | | s m e]; simpl; intros H.
  - reflexivity.
  - destruct s; reflexivity.
  - now elim H.
  - destruct s; rewrite Z.compare_refl, Pos.compare_cont_refl; reflexivity.
Qed.

Lemma is_nan_spec (x : float) : is_nan x = true <-> Prim2SF x = S754_nan.
Proof.
  unfold is_nan. rewrite FloatAxioms.eqb_spec. unfold SFeqb.
  destruct (Prim2SF x) eqn:E.
  - simpl. split; discriminate.
  - rewrite SFcompare_refl by discriminate. simpl. split; discriminate.
  - simpl. split; reflexivity.
  - rewrite SFcompare_refl by discriminate. simpl. split; discriminate.
Qed.

Lemma leb_nan_l (x y : float) : is_nan x = true -> PrimFloat.leb x y = false.
Proof.
  intros H. apply is_nan_spec in H.
  rewrite FloatAxioms.leb_spec, H. reflexivity.
Qed.

Lemma leb_nan_r (x y : float) : is_nan y = true -> PrimFloat.leb x y = false.
Proof.
  intros H. apply is_nan_spec in H.
  rewrite FloatAxioms.leb_spec, H. unfold SFleb.
  destruct (Prim2SF x); reflexivity.
Qed.

Lemma leb_refl (x : float) : is_nan x = false -> PrimFloat.leb x x = true.
Proof.
  intros H. rewrite FloatAxioms.leb_spec. unfold SFleb.
  rewrite SFcompare_refl; [reflexivity|].
  intros E. apply is_nan_spec in E. congruence.
Qed.

Lemma leb_true_not_nan (x y : float) :
  PrimFloat.leb x y = true -> is_nan x = false /\ is_nan y = false.
Proof.
  intros H. split.
  - destruct (is_nan x) eqn:E; [|reflexivity].
    rewrite (leb_nan_l x y E) in H. discriminate.
  - destruct (is_nan y) eqn:E; [|reflexivity].
    rewrite (leb_nan_r x y E) in H. discriminate.
Qed.

Lemma within_not_nan (l r x : float) : within l r x -> is_nan x = false.
Proof. intros [H _]. now apply leb_true_not_nan in H. Qed.

Lemma within_ends (l r : float) :
  PrimFloat.leb l r = true -> within l r l /\ within l r r.
Proof.
  intros H. destruct (leb_true_not_nan _ _ H) as [Hl Hr].
  unfold within. repeat split; auto using leb_refl.
Qed.

(** ** Facts on the embedding *)

Lemma check_Passed (m : option bool) : check m = Passed <-> m = Some true.
Proof. destruct m as [[|]|]; simpl; split; congruence. Qed.

Lemma check_AssertionFailed (m : option bool) :
  check m = AssertionFailed <-> m = Some false.
Proof. destruct m as [[|]|]; simpl; split; congruence. Qed.

Lemma list_eqb_eq (a b : list string) : list_eqb a b = true <-> a = b.
Proof.
  revert b. induction a as [|x a IH]; intros [|y b]; simpl;
    try (split; congruence).
  rewrite andb_true_iff, String.eqb_eq, IH. split.
  - intros [-> ->]. reflexivity.
  - intros E. injection E as -> ->. auto.
Qed.

Lemma getitem_In (data : DataFrame) (name : string) :
  In name (columns data) ->
  getitem data name = Some (map (fun r : Row => r name) (rows data)).
Proof. intros H. unfold getitem. destruct (in_dec _ _ _); [reflexivity | contradiction]. Qed.

Lemma getitem_Some (data : DataFrame) (name : string) (s : list cell) :
  getitem data name = Some s ->
  In name (columns data) /\ s = map (fun r : Row => r name) (rows data).
Proof.
  unfold getitem. destruct (in_dec _ _ _); [|discriminate].
  intros E. injection E as <-. auto.
Qed.

Lemma between_Some (s : list cell) (l r : float) (m : list bool) :
  between s l r = Some m ->
  m = map (betweenb l r) s /\ Forall (fun c => exists x, c = CNum x) s.
Proof.
  unfold between. revert m. induction s as [|c s IH]; simpl; intros m E.
  - injection E as <-. auto.
  - destruct c as [t | x | t]; simpl in E; try discriminate.
    destruct (mapM (between1 l r) s) as [bs|]; simpl in E; [|discriminate].
    injection E as <-. destruct (IH bs eq_refl) as [-> HF].
    split; [reflexivity|]. constructor; eauto.
Qed.

Lemma between_numeric (s : list cell) (l r : float) :
  Forall (fun c => exists x, c = CNum x) s ->
  between s l r = Some (map (betweenb l r) s).
Proof.
  unfold between. induction 1 as [|c s [x ->] _ IH]; simpl.
  - reflexivity.
  - rewrite IH. reflexivity.
Qed.

Lemma series_and_map {A : Type} (f g : A -> bool) (l : list A) :
  series_and (map f l) (map g l) = map (fun a => f a && g a) l.
Proof. induction l as [|a l IH]; simpl; [reflexivity | now rewrite IH]. Qed.

Lemma all_map {A : Type} (f : A -> bool) (l : list A) :
  all (map f l) = true <-> Forall (fun a => f a = true) l.
Proof.
  unfold all. induction l as [|a l IH]; simpl.
  - split; auto.
  - rewrite andb_true_iff, IH. split.
    + intros [H1 H2]. constructor; assumption.
    + intros H. inversion H; subst. auto.
Qed.

Lemma np_sum_invert_map {A : Type} (f : A -> bool) (l : list A) :
  np_sum (invert (map f l)) =
  Z.of_nat (List.length (filter (fun a => negb (f a)) l)).
Proof.
  unfold invert. induction l as [|a l IH]; simpl; [reflexivity|].
  rewrite IH. destruct (f a); simpl negb; cbv iota.
  - lia.
  - change (List.length (a :: ?t)) with (S (List.length t)). lia.
Qed.

Lemma filter_nil_Forall {A : Type} (f : A -> bool) (l : list A) :
  filter (fun a => negb (f a)) l = [] <-> Forall (fun a => f a = true) l.
Proof.
  induction l as [|a l IH]; simpl.
  - split; auto.
  - destruct (f a) eqn:E; simpl.
    + rewrite IH. split; [intros H; constructor; assumption | intros H; now inversion H].
    + split; [discriminate | intros H; inversion H; congruence].
Qed.

Lemma in_boxb_in_box (r : Row) : in_boxb r = true <-> in_box r.
Proof.
  unfold in_boxb, in_box, within. split.
  - destruct (r "longitude") as [|lon|]; try discriminate.
    destruct (r "latitude") as [|lat|]; try discriminate.
    rewrite !andb_true_iff. intros [[? ?] [? ?]].
    exists lon, lat. auto.
  - intros (lon & lat & -> & -> & [? ?] & [? ?]).
    rewrite !andb_true_iff. auto.
Qed.

Lemma in_boxb_betweenb (r : Row) :
  (exists x, r "longitude" = CNum x) -> (exists y, r "latitude" = CNum y) ->
  betweenb lon_min lon_max (r "longitude") && betweenb lat_min lat_max (r "latitude")
  = in_boxb r.
Proof. intros [x Hx] [y Hy]. unfold in_boxb. rewrite Hx, Hy. reflexivity. Qed.

Lemma Forall_map_num (name : string) (rs : list Row) :
  Forall (fun c => exists x, c = CNum x) (map (fun r : Row => r name) rs) <->
  (forall r, In r rs -> exists x, r name = CNum x).
Proof.
  rewrite Forall_forall. split.
  - intros H r Hr. apply H. apply in_map_iff. eauto.
  - intros H c Hc. apply in_map_iff in Hc as (r & <- & Hr). auto.
Qed.

(** The mask of the boundary check, when it is computed, is the decision
    [in_boxb] row by row. *)
Lemma boundaries_mask_Some (data : DataFrame) (idx : list bool) :
  boundaries_mask data = Some idx ->
  numeric_column data "longitude" /\ numeric_column data "latitude" /\
  idx = map in_boxb (rows data).
Proof.
  unfold boundaries_mask. intros E.
  destruct (getitem data "longitude") as [lon|] eqn:E1; simpl in E; [|discriminate].
  destruct (between lon lon_min lon_max) as [a|] eqn:E2; simpl in E; [|discriminate].
  destruct (getitem data "latitude") as [lat|] eqn:E3; simpl in E; [|discriminate].
  destruct (between lat lat_min lat_max) as [b|] eqn:E4; simpl in E; [|discriminate].
  injection E as <-.
  apply getitem_Some in E1 as [I1 ->]. apply getitem_Some in E3 as [I3 ->].
  apply between_Some in E2 as [-> N1]. apply between_Some in E4 as [-> N2].
  rewrite Forall_map_num in N1, N2.
  repeat split; auto.
  rewrite !map_map, series_and_map.
  apply map_ext_in. intros r Hr. apply in_boxb_betweenb; auto.
Qed.

Lemma boundaries_mask_numeric (data : DataFrame) :
  numeric_column data "longitude" -> numeric_column data "latitude" ->
  boundaries_mask data = Some (map in_boxb (rows data)).
Proof.
  intros [I1 N1] [I2 N2]. unfold boundaries_mask.
  rewrite (getitem_In _ _ I1). simpl.
  rewrite between_numeric by (apply Forall_map_num; assumption). simpl.
  rewrite (getitem_In _ _ I2). simpl.
  rewrite between_numeric by (apply Forall_map_num; assumption). simpl.
  f_equal. rewrite !map_map, series_and_map.
  apply map_ext_in. intros r Hr. apply in_boxb_betweenb; auto.
Qed.

Lemma in_box_numeric (data : DataFrame) :
  In "longitude" (columns data) -> In "latitude" (columns data) ->
  Forall in_box (rows data) ->
  numeric_column data "longitude" /\ numeric_column data "latitude".
Proof.
  intros I1 I2 HF. rewrite Forall_forall in HF.
  split; (split; [assumption|]); intros r Hr;
    destruct (HF r Hr) as (lon & lat & E1 & E2 & _); eauto.
Qed.

Lemma violations_numeric (data : DataFrame) :
  numeric_column data "longitude" -> numeric_column data "latitude" ->
  violations data = Some (rows_outside data).
Proof.
  intros N1 N2. unfold violations.
  rewrite (boundaries_mask_numeric _ N1 N2). simpl.
  now rewrite np_sum_invert_map.
Qed.

Lemma violations_Some (data : DataFrame) (n : Z) :
  violations data = Some n ->
  numeric_column data "longitude" /\ numeric_column data "latitude" /\
  n = rows_outside data.
Proof.
  unfold violations. intros E.
  destruct (boundaries_mask data) as [idx|] eqn:E1; simpl in E; [|discriminate].
  injection E as <-.
  apply boundaries_mask_Some in E1 as (N1 & N2 & ->).
  repeat split; try assumption; try apply N1; try apply N2.
  now rewrite np_sum_invert_map.
Qed.

Lemma rows_outside_zero (data : DataFrame) :
  rows_outside data = 0%Z <-> Forall in_box (rows data).
Proof.
  unfold rows_outside.
  assert (E : Forall in_box (rows data) <->
              Forall (fun r => in_boxb r = true) (rows data)).
  { rewrite !Forall_forall. split; intros H r Hr; apply in_boxb_in_box; auto. }
  rewrite E, <- filter_nil_Forall.
  destruct (filter _ _); simpl; split; try congruence; try lia.
Qed.

Lemma test_proper_boundaries_Passed (data : DataFrame) :
  test_proper_boundaries data = Passed <->
  In "longitude" (columns data) /\ In "latitude" (columns data) /\
  Forall in_box (rows data).
Proof.
  unfold test_proper_boundaries. rewrite check_Passed. split.
  - intros E.
    destruct (violations data) as [n|] eqn:V; simpl in E; [|discriminate].
    injection E as E. apply Z.eqb_eq in E. subst n.
    apply violations_Some in V as ([I1 _] & [I2 _] & V).
    repeat split; try assumption. now apply rows_outside_zero.
  - intros (I1 & I2 & HF).
    destruct (in_box_numeric data I1 I2 HF) as [N1 N2].
    rewrite (violations_numeric _ N1 N2). simpl.
    apply rows_outside_zero in HF. now rewrite HF.
Qed.

Lemma test_proper_boundaries_Failed (data : DataFrame) :
  test_proper_boundaries data = AssertionFailed <->
  numeric_column data "longitude" /\ numeric_column data "latitude" /\
  rows_outside data <> 0%Z.
Proof.
  unfold test_proper_boundaries. rewrite check_AssertionFailed. split.
  - intros E.
    destruct (violations data) as [n|] eqn:V; simpl in E; [|discriminate].
    injection E as E. apply Z.eqb_neq in E.
    apply violations_Some in V as (N1 & N2 & ->). auto.
  - intros (N1 & N2 & H).
    rewrite (violations_numeric _ N1 N2). simpl.
    apply Z.eqb_neq in H. now rewrite H.
Qed.

Lemma betweenb_price_within (l r : float) (row : Row) :
  betweenb l r (row "price") = true <-> price_within l r row.
Proof.
  unfold price_within, within. split.
  - destruct (row "price") as [|p|]; simpl; try discriminate.
    rewrite andb_true_iff. intros [? ?]. exists p. auto.
  - intros (p & -> & [? ?]). simpl. rewrite andb_true_iff. auto.
Qed.

Lemma test_price_range_Passed (data : DataFrame) (min_price max_price : float) :
  test_price_range data min_price max_price = Passed <->
  In "price" (columns data) /\
  Forall (price_within min_price max_price) (rows data).
Proof.
  unfold test_price_range. rewrite check_Passed. split.
  - intros E.
    destruct (getitem data "price") as [price|] eqn:G; simpl in E; [|discriminate].
    destruct (between price min_price max_price) as [idx|] eqn:B; simpl in E;
      [|discriminate].
    injection E as E.
    apply getitem_Some in G as [I ->]. apply between_Some in B as [-> _].
    rewrite map_map in E. apply all_map in E.
    split; [assumption|]. rewrite Forall_forall in *.
    intros r Hr. apply betweenb_price_within. auto.
  - intros [I HF]. rewrite (getitem_In _ _ I). simpl.
    rewrite between_numeric.
    + simpl. f_equal. rewrite map_map. apply all_map.
      rewrite Forall_forall in *. intros r Hr.
      apply betweenb_price_within. auto.
    + apply Forall_map_num. rewrite Forall_forall in HF.
      intros r Hr. destruct (HF r Hr) as (p & E & _). eauto.
Qed.

Lemma test_price_range_Failed (data : DataFrame) (min_price max_price : float) :
  numeric_column data "price" ->
  (exists r, In r (rows data) /\ ~ price_within min_price max_price r) ->
  test_price_range data min_price max_price = AssertionFailed.
Proof.
  intros [I N] (r & Hr & Hout).
  unfold test_price_range. rewrite check_AssertionFailed.
  rewrite (getitem_In _ _ I). simpl.
  rewrite between_numeric by (apply Forall_map_num; assumption). simpl.
  f_equal. rewrite map_map.
  destruct (all _) eqn:E; [|reflexivity].
  apply all_map in E. rewrite Forall_forall in E.
  elim Hout. apply betweenb_price_within. auto.
Qed.

(** ** The checks, claim by claim *)

(** C4. The schema check passes exactly when the column labels of the
    frame are the sixteen expected labels in the expected order.  A frame
    with another number of columns fails, so does one with a column
    inserted into, or taken out of, the expected sequence, and so does any
    reordering of the expected labels other than the expected one. *)
Theorem schema_shape_exact (data : DataFrame) :
  (test_column_names data = Passed <-> columns data = expected_colums) /\
  (test_column_names data <> Passed -> test_column_names data = AssertionFailed) /\
  (List.length (columns data) <> 16%nat -> test_column_names data = AssertionFailed) /\
  (forall pre post c,
      expected_colums = pre ++ post -> columns data = pre ++ c :: post ->
      test_column_names data = AssertionFailed) /\
  (forall pre post c,
      expected_colums = pre ++ c :: post -> columns data = pre ++ post ->
      test_column_names data = AssertionFailed) /\
  (Permutation (columns data) expected_colums ->
   columns data <> expected_colums ->
   test_column_names data = AssertionFailed).
Proof.
  assert (P : test_column_names data = Passed <-> columns data = expected_colums).
  { unfold test_column_names. cbv zeta. rewrite check_Passed. split.
    - intros E. symmetry. apply list_eqb_eq. congruence.
    - intros ->. reflexivity. }
  assert (F : columns data <> expected_colums ->
              test_column_names data = AssertionFailed).
  { intros H. unfold test_column_names. cbv zeta.
    destruct (list_eqb expected_colums (columns data)) eqn:E; [|reflexivity].
    apply list_eqb_eq in E. congruence. }
  split; [exact P|]. split.
  { intros H. apply F. intros E. apply H, P, E. }
  split.
  { intros H. apply F. intros E. rewrite E in H. now apply H. }
  split.
  { intros pre post c E1 E2. apply F. intros E.
    apply (f_equal (@List.length string)) in E.
    rewrite E2, E1, !length_app in E. simpl in E. lia. }
  split.
  { intros pre post c E1 E2. apply F. intros E.
    apply (f_equal (@List.length string)) in E.
    rewrite E2, E1, !length_app in E. simpl in E. lia. }
  intros _ H. now apply F.
Qed.

(** C7. The row-count check passes exactly when the number of rows is
    strictly between 15000 and 1000000: 15000 rows fail, 15001 pass, 999999
    pass and 1000000 fail. *)
Theorem row_count_bounds_exclusive (data : DataFrame) :
  (test_row_count data = Passed <-> (15000 < shape0 data < 1000000)%Z) /\
  (shape0 data = 15000%Z -> test_row_count data = AssertionFailed) /\
  (shape0 data = 15001%Z -> test_row_count data = Passed) /\
  (shape0 data = 999999%Z -> test_row_count data = Passed) /\
  (shape0 data = 1000000%Z -> test_row_count data = AssertionFailed).
Proof.
  unfold test_row_count. split.
  - rewrite check_Passed. split.
    + intros E. injection E as E. apply andb_true_iff in E as [A B].
      apply Z.ltb_lt in A, B. lia.
    + intros [A B]. apply Z.ltb_lt in A, B. now rewrite A, B.
  - repeat split; intros ->; reflexivity.
Qed.

(** C7 on frames of exactly 15000, 15001, 999999 and 1000000 rows. *)
Lemma row_count_bounds_exclusive_witness :
  test_row_count (frame_of_size 15000) = AssertionFailed /\
  test_row_count (frame_of_size 15001) = Passed /\
  test_row_count (frame_of_size 999999) = Passed /\
  test_row_count (frame_of_size 1000000) = AssertionFailed.
Proof.
  assert (S : forall n, (0 <= n)%Z -> shape0 (frame_of_size n) = n).
  { intros n Hn. unfold shape0, frame_of_size, frame_of. simpl.
    rewrite repeat_length. now apply Z2Nat.id. }
  split; [|split; [|split]].
  - destruct (row_count_bounds_exclusive (frame_of_size 15000)) as (_ & H & _).
    apply H, S. lia.
  - destruct (row_count_bounds_exclusive (frame_of_size 15001)) as (_ & _ & H & _).
    apply H, S. lia.
  - destruct (row_count_bounds_exclusive (frame_of_size 999999)) as (_ & _ & _ & H & _).
    apply H, S. lia.
  - destruct (row_count_bounds_exclusive (frame_of_size 1000000)) as (_ & _ & _ & _ & H).
    apply H, S. lia.
Defined.

(** C6. The boundary check passes exactly when the frame has the two
    coordinate columns and every row has its longitude in [-74.25, -73.50]
    and its latitude in [40.5, 41.2], ends included.  When its assertion
    fails, the number it compares with zero, [np.sum(~idx)], is the number
    of rows outside the box, and is positive. *)
Theorem geographic_bounds_exact (data : DataFrame) :
  (test_proper_boundaries data = Passed <->
   In "longitude" (columns data) /\ In "latitude" (columns data) /\
   Forall in_box (rows data)) /\
  (test_proper_boundaries data = AssertionFailed ->
   violations data = Some (rows_outside data) /\ (0 < rows_outside data)%Z) /\
  (forall r, negb (in_boxb r) = true <-> ~ in_box r).
Proof.
  split; [apply test_proper_boundaries_Passed|]. split.
  - intros F. apply test_proper_boundaries_Failed in F as (N1 & N2 & H).
    split; [now apply violations_numeric|].
    unfold rows_outside in *. lia.
  - intros r. rewrite <- in_boxb_in_box.
    destruct (in_boxb r); simpl; split; congruence.
Qed.

(** C8. The price check passes exactly when the frame has a price column
    and every price lies between [min_price] and [max_price], ends
    included.  One price outside the interval fails a numeric column; the
    two bounds themselves are inside; 501 is outside 10 to 500, so the frame
    with prices 10 and 500 passes and fails once a price of 501 is added. *)
Theorem numeric_range_exact (data : DataFrame) (min_price max_price : float) :
  (test_price_range data min_price max_price = Passed <->
   In "price" (columns data) /\
   Forall (price_within min_price max_price) (rows data)) /\
  (numeric_column data "price" ->
   (exists r, In r (rows data) /\ ~ price_within min_price max_price r) ->
   test_price_range data min_price max_price = AssertionFailed) /\
  (PrimFloat.leb min_price max_price = true ->
   within min_price max_price min_price /\ within min_price max_price max_price) /\
  ~ within 10 500 501 /\
  test_price_range priced_frame 10 500 = Passed /\
  test_price_range overpriced_frame 10 500 = AssertionFailed.
Proof.
  split; [apply test_price_range_Passed|].
  split; [apply test_price_range_Failed|].
  split; [apply within_ends|].
  split; [|split].
  - intros [_ H]. vm_compute in H. discriminate.
  - vm_compute. reflexivity.
  - vm_compute. reflexivity.
Qed.

Lemma isna_not_in_box (r : Row) :
  isna (r "longitude") = true \/ isna (r "latitude") = true -> in_boxb r = false.
Proof.
  unfold in_boxb.
  destruct (r "longitude") as [s|lon|t]; try reflexivity.
  destruct (r "latitude") as [s|lat|t]; try reflexivity.
  simpl. intros [H | H].
  - rewrite (leb_nan_r lon_min lon H). reflexivity.
  - rewrite (leb_nan_r lat_min lat H). simpl. apply andb_false_r.
Qed.

Lemma isna_not_price_within (l h : float) (r : Row) :
  isna (r "price") = true -> ~ price_within l h r.
Proof.
  intros H (p & E & W). rewrite E in H. simpl in H.
  apply within_not_nan in W. congruence.
Qed.

Lemma rows_outside_pos (data : DataFrame) (r : Row) :
  In r (rows data) -> in_boxb r = false -> (0 < rows_outside data)%Z.
Proof.
  intros Hr Hb. unfold rows_outside.
  assert (I : In r (filter (fun r => negb (in_boxb r)) (rows data))).
  { apply filter_In. split; [assumption | now rewrite Hb]. }
  destruct (filter _ _); [elim I | simpl List.length; lia].
Qed.

(** C10. A row whose longitude or latitude is missing is outside the box:
    the boundary check does not pass, and on numeric coordinate columns its
    assertion fails with that row among the violations counted.  A row
    whose price is missing is outside every price range: the price check
    does not pass, and on a numeric price column its assertion fails. *)
Theorem missing_values_fail (data : DataFrame) (r : Row) :
  In r (rows data) ->
  (isna (r "longitude") = true \/ isna (r "latitude") = true ->
   negb (in_boxb r) = true /\
   test_proper_boundaries data <> Passed /\
   (numeric_column data "longitude" -> numeric_column data "latitude" ->
    test_proper_boundaries data = AssertionFailed /\
    violations data = Some (rows_outside data) /\ (0 < rows_outside data)%Z)) /\
  (isna (r "price") = true ->
   forall min_price max_price,
     test_price_range data min_price max_price <> Passed /\
     (numeric_column data "price" ->
      test_price_range data min_price max_price = AssertionFailed)).
Proof.
  intros Hr. split.
  - intros H. pose proof (isna_not_in_box r H) as Hb.
    pose proof (rows_outside_pos data r Hr Hb) as Hpos.
    split; [now rewrite Hb|]. split.
    + intros P. apply test_proper_boundaries_Passed in P as (_ & _ & HF).
      apply rows_outside_zero in HF. lia.
    + intros N1 N2. split; [|split].
      * apply test_proper_boundaries_Failed. repeat split;
          try apply N1; try apply N2. lia.
      * now apply violations_numeric.
      * assumption.
  - intros H l h. pose proof (isna_not_price_within l h r H) as Hout. split.
    + intros P. apply test_price_range_Passed in P as [_ HF].
      rewrite Forall_forall in HF. apply Hout. auto.
    + intros N. apply test_price_range_Failed; eauto.
Qed.

Lemma frame_of_numeric (rs : list Row) (name : string) :
  In name expected_colums ->
  Forall (fun r => exists x, r name = CNum x) rs ->
  numeric_column (frame_of rs) name.
Proof.
  intros I HF. split; [exact I|]. now apply Forall_forall.
Qed.

(** C10 on a frame with a listing that lacks latitude and price. *)
Lemma missing_values_fail_witness :
  In blank_listing (rows blank_frame) /\
  test_proper_boundaries blank_frame = AssertionFailed /\
  violations blank_frame = Some 1%Z /\
  test_price_range blank_frame 10 500 = AssertionFailed.
Proof.
  assert (Hin : In blank_listing (rows blank_frame)) by (simpl; auto).
  destruct (missing_values_fail blank_frame blank_listing Hin) as [G P].
  assert (N : forall name, In name ["longitude"; "latitude"; "price"] ->
                           numeric_column blank_frame name).
  { intros name Hn. apply frame_of_numeric.
    - simpl in Hn. simpl. intuition.
    - simpl in Hn. destruct Hn as [<- | [<- | [<- | []]]];
        repeat constructor; eexists; reflexivity. }
  split; [exact Hin|].
  destruct G as (_ & _ & G); [right; reflexivity|].
  destruct G as (G1 & G2 & _); [apply N; simpl; auto | apply N; simpl; auto |].
  split; [exact G1|]. split; [exact G2|].
  apply (P eq_refl 10%float 500%float). apply N. simpl; auto.
Defined.

(** ** The cleaning step *)

Lemma mask_filter_In {A : Type} (m : list bool) (l : list A) (a : A) :
  In a (mask_filter m l) -> In a l.
Proof.
  revert l. induction m as [|b m IH]; intros [|x l]; simpl; try tauto.
  destruct b; simpl; intros H.
  - destruct H as [H | H]; auto.
  - auto.
Qed.

Lemma mask_filter_map {A : Type} (f : A -> bool) (l : list A) (a : A) :
  In a (mask_filter (map f l) l) -> f a = true.
Proof.
  induction l as [|x l IH]; simpl; [tauto|].
  destruct (f x) eqn:E; simpl; intros H.
  - destruct H as [<- | H]; auto.
  - auto.
Qed.

Lemma set_cells_In (name : string) (rs rs' : list Row) (vs : list cell) (r' : Row) :
  set_cells name rs vs = Some rs' -> In r' rs' ->
  exists r v, In r rs /\ r' = set_cell r name v.
Proof.
  revert vs rs'. induction rs as [|r rs IH]; intros [|v vs] rs' E Hin;
    simpl in E; try discriminate.
  - injection E as <-. elim Hin.
  - destruct (set_cells name rs vs) as [t|] eqn:Et; simpl in E; [|discriminate].
    injection E as <-. destruct Hin as [<- | Hin].
    + exists r, v. simpl. auto.
    + destruct (IH vs t Et Hin) as (r0 & v0 & H0 & ->).
      exists r0, v0. simpl. auto.
Qed.


Lemma set_cell_other (r : Row) (name k : string) (v : cell) :
  String.eqb k name = false -> set_cell r name v k = r k.
Proof. intros E. unfold set_cell. now rewrite E. Qed.

(** The rows [go] keeps, read off its definition: the price filter, the
    date conversion, then the boundary filter. *)
Lemma go_Some (to_datetime : list cell -> option (list cell))
    (df out : DataFrame) (min_price max_price : float) :
  go to_datetime df min_price max_price = Some out ->
  exists converted df',
    In "price" (columns df) /\
    setitem (loc df (map (fun r : Row => betweenb min_price max_price (r "price")) (rows df)))
            "last_review" converted = Some df' /\
    boundaries_mask df' = Some (map in_boxb (rows df')) /\
    out = loc df' (map in_boxb (rows df')).
Proof.
  unfold go. intros E.
  destruct (getitem df "price") as [price|] eqn:G; simpl in E; [|discriminate].
  destruct (between price min_price max_price) as [idx|] eqn:B; simpl in E;
    [|discriminate].
  destruct (getitem _ "last_review") as [lr|] eqn:GL; simpl in E; [|discriminate].
  destruct (to_datetime lr) as [converted|] eqn:T; simpl in E; [|discriminate].
  destruct (setitem _ "last_review" converted) as [df'|] eqn:S; simpl in E;
    [|discriminate].
  apply getitem_Some in G as [I ->]. apply between_Some in B as [-> _].
  rewrite map_map in S.
  exists converted, df'. split; [exact I|]. split; [exact S|].
  destruct (boundaries_mask df') as [idv|] eqn:M.
  - pose proof M as M'. apply boundaries_mask_Some in M' as (_ & _ & ->).
    split; [reflexivity|].
    unfold boundaries_mask in M.
    destruct (getitem df' "longitude") as [lon|]; simpl in *; [|discriminate].
    destruct (between lon lon_min lon_max) as [a|]; simpl in *; [|discriminate].
    destruct (getitem df' "latitude") as [lat|]; simpl in *; [|discriminate].
    destruct (between lat lat_min lat_max) as [b|]; simpl in *; [|discriminate].
    congruence.
  - exfalso. unfold boundaries_mask in M.
    destruct (getitem df' "longitude") as [lon|]; simpl in *; [|discriminate].
    destruct (between lon lon_min lon_max) as [a|]; simpl in *; [|discriminate].
    destruct (getitem df' "latitude") as [lat|]; simpl in *; [|discriminate].
    destruct (between lat lat_min lat_max) as [b|]; simpl in *; discriminate.
Qed.

(** C9. Whatever frame the cleaning step is given and whatever the price
    bounds, the frame it produces passes the price check with the same
    bounds and the boundary check. *)
Theorem cleaning_output_passes_checks
    (to_datetime : list cell -> option (list cell))
    (df out : DataFrame) (min_price max_price : float) :
  go to_datetime df min_price max_price = Some out ->
  test_price_range out min_price max_price = Passed /\
  test_proper_boundaries out = Passed.
Proof.
  intros E. apply go_Some in E as (converted & df' & I & S & M & ->).
  unfold setitem in S.
  destruct (set_cells _ _ converted) as [rs|] eqn:SC; simpl in S; [|discriminate].
  injection S as <-. simpl in *.
  apply boundaries_mask_Some in M as ([I1 _] & [I2 _] & _). simpl in *.
  split.
  - apply test_price_range_Passed. simpl. split; [exact I|].
    apply Forall_forall. intros r' Hr'.
    apply mask_filter_In in Hr'.
    destruct (set_cells_In _ _ _ _ _ SC Hr') as (r & v & Hr & ->).
    apply mask_filter_map in Hr.
    apply betweenb_price_within.
    now rewrite set_cell_other by reflexivity.
  - apply test_proper_boundaries_Passed. simpl.
    split; [exact I1|]. split; [exact I2|].
    apply Forall_forall. intros r' Hr'.
    apply in_boxb_in_box. now apply mask_filter_map in Hr'.
Qed.

(** C9 on a raw frame of four listings, of which the cleaning keeps one. *)
Lemma cleaning_output_passes_checks_witness :
  exists out,
    go all_NaT raw_frame 10 500 = Some out /\
    shape0 out = 1%Z /\
    test_price_range out 10 500 = Passed /\
    test_proper_boundaries out = Passed.
Proof.
  destruct (go all_NaT raw_frame 10 500) as [out|] eqn:E.
  - exists out. split; [reflexivity|]. split.
    + vm_compute in E. injection E as <-. reflexivity.
    + exact (cleaning_output_passes_checks all_NaT raw_frame out 10 500 E).
  - vm_compute in E. discriminate.
Defined.


(** ** The categories *)

Lemma cell_eqb_str_l (s : string) (c : cell) :
  cell_eqb (CStr s) c = true <-> c = CStr s.
Proof.
  destruct c as [t | x | t]; simpl; try (split; congruence).
  rewrite String.eqb_eq. split; congruence.
Qed.

Lemma cell_eqb_str_r (s : string) (c : cell) :
  cell_eqb c (CStr s) = true <-> c = CStr s.
Proof.
  destruct c as [t | x | [i|]]; simpl; try (split; congruence).
  rewrite String.eqb_eq. split; congruence.
Qed.

Lemma unique_incl (l : list cell) (c : cell) : In c (unique l) -> In c l.
Proof.
  induction l as [|d l IH]; simpl; [tauto|].
  intros [H | H]; [auto|]. apply filter_In in H as [H _]. auto.
Qed.

Lemma unique_In_str (l : list cell) (s : string) :
  In (CStr s) l -> In (CStr s) (unique l).
Proof.
  induction l as [|d l IH]; simpl; [tauto|].
  intros [H | H]; [auto|].
  destruct (cell_eqb d (CStr s)) eqn:E.
  - left. now apply cell_eqb_str_r in E.
  - right. apply filter_In. split; [auto | now rewrite E].
Qed.

Lemma unique_keeps_other (l : list cell) (c : cell) :
  In c l -> (forall s, c <> CStr s) ->
  exists d, In d (unique l) /\ (forall s, d <> CStr s).
Proof.
  induction l as [|d l IH]; simpl; [tauto|].
  intros [-> | H] Hc.
  - exists c. auto.
  - destruct (IH H Hc) as (e & He & Hs).
    destruct d as [t | x | t].
    + exists e. split; [|exact Hs]. right. apply filter_In. split; [exact He|].
      destruct (cell_eqb (CStr t) e) eqn:E; [|reflexivity].
      apply cell_eqb_str_l in E. now elim (Hs t).
    + exists (CNum x). split; [auto | congruence].
    + exists (CTime t). split; [auto | congruence].
Qed.

Lemma In_column (name : string) (rs : list Row) (r : Row) :
  In r rs -> In (r name) (map (fun r : Row => r name) rs).
Proof. intros H. apply in_map_iff. eauto. Qed.

Lemma set_eqb_known (l : list cell) :
  set_eqb (map CStr known_names) l = true <->
  (forall s, In s known_names -> In (CStr s) l) /\
  (forall c, In c l -> exists s, c = CStr s /\ In s known_names).
Proof.
  unfold set_eqb, set_mem.
  rewrite andb_true_iff, !forallb_forall. split.
  - intros [A B]. split.
    + intros s Hs.
      specialize (A (CStr s) (in_map CStr _ _ Hs)).
      apply existsb_exists in A as (d & Hd & E).
      apply cell_eqb_str_l in E. now subst d.
    + intros c Hc. specialize (B c Hc).
      apply existsb_exists in B as (d & Hd & E).
      apply in_map_iff in Hd as (s & <- & Hs).
      apply cell_eqb_str_r in E. eauto.
  - intros [A B]. split.
    + intros c Hc. apply in_map_iff in Hc as (s & <- & Hs).
      apply existsb_exists. exists (CStr s). split; [auto|].
      now apply cell_eqb_str_l.
    + intros c Hc. destruct (B c Hc) as (s & -> & Hs).
      apply existsb_exists. exists (CStr s). split; [now apply in_map|].
      now apply cell_eqb_str_l.
Qed.

Lemma test_neighborhood_names_Passed (data : DataFrame) :
  test_neighborhood_names data = Passed <->
  In "neighbourhood_group" (columns data) /\
  (forall s, In s known_names <-> label_present data s) /\
  (forall r, In r (rows data) -> exists s, r "neighbourhood_group" = CStr s).
Proof.
  unfold test_neighborhood_names. rewrite check_Passed. cbv zeta. split.
  - intros E.
    destruct (getitem data "neighbourhood_group") as [col|] eqn:G;
      cbn [bind] in E; [|discriminate].
    apply getitem_Some in G as [I ->].
    assert (E' : set_eqb (map CStr known_names)
                   (unique (map (fun r : Row => r "neighbourhood_group") (rows data)))
                 = true) by congruence.
    apply set_eqb_known in E' as [A B].
    assert (C : forall r, In r (rows data) ->
                          exists s, r "neighbourhood_group" = CStr s /\ In s known_names).
    { intros r Hr.
      destruct (r "neighbourhood_group") as [t | x | t] eqn:Er.
      - exists t. split; [reflexivity|].
        destruct (B (CStr t)) as (s & Es & Hs).
        + apply unique_In_str. rewrite <- Er. now apply In_column.
        + congruence.
      - exfalso.
        destruct (unique_keeps_other
                    (map (fun r : Row => r "neighbourhood_group") (rows data))
                    (CNum x)) as (d & Hd & Hn).
        + rewrite <- Er. now apply In_column.
        + congruence.
        + destruct (B d Hd) as (s & -> & _). now elim (Hn s).
      - exfalso.
        destruct (unique_keeps_other
                    (map (fun r : Row => r "neighbourhood_group") (rows data))
                    (CTime t)) as (d & Hd & Hn).
        + rewrite <- Er. now apply In_column.
        + congruence.
        + destruct (B d Hd) as (s & -> & _). now elim (Hn s). }
    split; [exact I|]. split.
    + intros s. split.
      * intros Hs. apply A, unique_incl, in_map_iff in Hs as (r & Er & Hr).
        exists r. auto.
      * intros (r & Hr & Er). destruct (C r Hr) as (t & Et & Ht). congruence.
    + intros r Hr. destruct (C r Hr) as (t & Et & _). eauto.
  - intros (I & A & C). rewrite (getitem_In _ _ I). cbn [bind]. f_equal.
    apply set_eqb_known. split.
    + intros s Hs. apply unique_In_str. apply A in Hs as (r & Hr & Er).
      rewrite <- Er. now apply In_column.
    + intros c Hc. apply unique_incl, in_map_iff in Hc as (r & <- & Hr).
      destruct (C r Hr) as (s & Es). exists s. split; [exact Es|].
      apply A. exists r. auto.
Qed.

Lemma test_neighborhood_names_not_Raised (data : DataFrame) :
  In "neighbourhood_group" (columns data) ->
  test_neighborhood_names data <> Passed ->
  test_neighborhood_names data = AssertionFailed.
Proof.
  intros I. unfold test_neighborhood_names. rewrite (getitem_In _ _ I).
  cbn [bind]. cbv zeta. destruct (set_eqb _ _); simpl; congruence.
Qed.

(** C5, as the code has it. The borough check passes exactly when the
    frame has the column, every cell of the column is a string, and the
    strings that occur are the five known names, no more and no fewer.  A
    null in the column counts as a value that is not a known name, so a
    frame with a null fails; a frame with a label outside the known names
    fails; a frame that lacks one of the known names fails. *)
Theorem categorical_domain_exact (data : DataFrame) :
  (test_neighborhood_names data = Passed <->
   In "neighbourhood_group" (columns data) /\
   (forall s, In s known_names <-> label_present data s) /\
   (forall r, In r (rows data) -> exists s, r "neighbourhood_group" = CStr s)) /\
  (forall r, In r (rows data) -> isna (r "neighbourhood_group") = true ->
             test_neighborhood_names data <> Passed) /\
  (forall s, label_present data s -> ~ In s known_names ->
             test_neighborhood_names data <> Passed) /\
  (forall s, In s known_names -> ~ label_present data s ->
             test_neighborhood_names data <> Passed) /\
  (In "neighbourhood_group" (columns data) ->
   test_neighborhood_names data <> Passed ->
   test_neighborhood_names data = AssertionFailed).
Proof.
  split; [apply test_neighborhood_names_Passed|].
  split; [|split; [|split]].
  - intros r Hr Hn P.
    apply test_neighborhood_names_Passed in P as (_ & _ & C).
    destruct (C r Hr) as (s & Es). rewrite Es in Hn. discriminate.
  - intros s Hs Hk P.
    apply test_neighborhood_names_Passed in P as (_ & A & _).
    apply Hk, A, Hs.
  - intros s Hk Hs P.
    apply test_neighborhood_names_Passed in P as (_ & A & _).
    apply Hs, A, Hk.
  - apply test_neighborhood_names_not_Raised.
Qed.

(** C5, as the claim words it, fails on a frame with the five boroughs and
    one listing whose borough is null: its distinct non-null values are the
    known names, yet the check fails, while it passes once the null listing
    is left out. *)
Lemma categorical_domain_null_counterexample :
  nonnull_values_match boroughs_and_null_frame /\
  test_neighborhood_names boroughs_and_null_frame = AssertionFailed /\
  test_neighborhood_names boroughs_frame = Passed.
Proof.
  split; [|split; vm_compute; reflexivity].
  intros c. unfold boroughs_and_null_frame, frame_of, five_boroughs. cbn [rows].
  split.
  - intros (r & Hr & Er & Hn). apply in_app_or in Hr as [Hr | Hr].
    + apply in_map_iff in Hr as (s & <- & Hs). exists s. split; [|exact Hs].
      rewrite <- Er. reflexivity.
    + destruct Hr as [<- | []]. rewrite <- Er in Hn.
      vm_compute in Hn. discriminate.
  - intros (s & -> & Hs).
    exists (listing (CStr s) 40.75 (-73.875) 100). split; [|split].
    + apply in_or_app. left.
      apply (in_map (fun s => listing (CStr s) 40.75 (-73.875) 100)), Hs.
    + reflexivity.
    + reflexivity.
Qed.

(** ** The divergence over the reals *)

Section Gibbs.
Local Open Scope R_scope.





Lemma kl_term_self (p : R) : 0 <= p -> kl_term p p = 0.
Proof.
  intros Hp. unfold kl_term. destruct (Rlt_dec 0 p) as [Pp | Np]; [|reflexivity].
  replace (p / p) with 1 by (field; lra). rewrite ln_1. ring.
Qed.


Lemma kl_self (P : list R) : Forall (fun p => 0 <= p) P -> kl P P = 0.
Proof.
  unfold kl. induction 1 as [|p P Hp _ IH]; simpl; [reflexivity|].
  rewrite (kl_term_self p Hp), IH. ring.
Qed.

(** The relative entropies of compatible finite entries are finite, and add
    up to [kl]. *)
Lemma rel_entr_compatible (p q : R) :
  compatible p q -> rel_entr (Fin p) (Fin q) = Fin (kl_term p q).
Proof.
  intros (Hp & Hq & Hz). unfold rel_entr, kl_term.
  destruct (Rlt_dec 0 p) as [Pp | Np].
  - destruct (Rlt_dec 0 q) as [Pq | Nq]; [reflexivity|].
    assert (q = 0) by lra. apply Hz in H. lra.
  - destruct (Req_dec_T p 0) as [Z | NZ]; [|lra].
    destruct (Rle_dec 0 q); [reflexivity | contradiction].
Qed.

Lemma xsum_rel_entr (P Q : list R) :
  Forall2 compatible P Q ->
  xsum (zip_with rel_entr (map Fin P) (map Fin Q)) = Fin (kl P Q).
Proof.
  unfold xsum, kl, Rsum.
  induction 1 as [|p q P Q C _ IH]; cbn [map zip_with fold_right]; [reflexivity|].
  rewrite IH, (rel_entr_compatible p q C). reflexivity.
Qed.

Lemma normalize_nonzero (v : list R) :
  Rsum v <> 0 -> normalize v = map Fin (map (fun x => x / Rsum v) v).
Proof.
  intros H. unfold normalize. rewrite map_map.
  apply map_ext. intros x. unfold xdiv.
  destruct (Req_dec_T (Rsum v) 0); [contradiction | reflexivity].
Qed.





Lemma entropy_self (P : list R) :
  Forall (fun p => 0 <= p) P -> 0 < Rsum P -> entropy P P 2 = Some (Fin 0).
Proof.
  intros N HP.
  assert (L : List.length (normalize P) = List.length P)
    by (unfold normalize; now rewrite length_map).
  set (P' := map (fun x => x / Rsum P) P).
  assert (N' : Forall (fun p => 0 <= p) P').
  { unfold P'. apply Forall_forall. intros y Hy.
    apply in_map_iff in Hy as (x & <- & Hx).
    rewrite Forall_forall in N. apply Rmult_le_pos; [auto|].
    left. now apply Rinv_0_lt_compat. }
  assert (C' : Forall2 compatible P' P').
  { clear - N'. induction N' as [|p l Hp _ IH]; constructor; [|assumption].
    unfold compatible. auto. }
  unfold entropy, broadcast_arrays.
  apply Nat.eqb_eq in L. rewrite L. cbn [bind fst snd].
  rewrite (normalize_nonzero P) by lra. fold P'.
  rewrite (xsum_rel_entr P' P' C'), (kl_self P' N'). cbn [xscale].
  do 2 f_equal. unfold Rdiv. ring.
Qed.

End Gibbs.



(** ** The similarity check *)

Lemma insert_entry_strings (e : cell * nat) (l : list (cell * nat)) :
  string_entry e -> Forall string_entry l ->
  exists l', insert_entry e l = Some l' /\ Permutation (e :: l) l'.
Proof.
  intros [s Es]. induction 1 as [|f l [t Et] _ IH]; simpl.
  - eauto.
  - rewrite Es, Et. simpl. destruct (String.leb s t).
    + eauto.
    + destruct IH as (l' & -> & Pm). simpl.
      exists (f :: l'). split; [reflexivity|].
      rewrite perm_swap. now constructor.
Qed.

Lemma sort_index_strings (l : list (cell * nat)) :
  Forall string_entry l ->
  exists l', sort_index l = Some l' /\ Permutation l l'.
Proof.
  induction 1 as [|e l He Hl IH]; simpl.
  - eauto.
  - destruct IH as (l1 & -> & P1). simpl.
    destruct (insert_entry_strings e l1 He) as (l2 & E2 & P2).
    + eapply Permutation_Forall; eassumption.
    + exists l2. split; [exact E2|].
      rewrite <- P2. now constructor.
Qed.

Lemma dropna_In (s : list cell) (c : cell) :
  In c (dropna s) <-> In c s /\ isna c = false.
Proof.
  unfold dropna. rewrite filter_In.
  destruct (isna c); simpl; intuition congruence.
Qed.

Lemma occurrences_pos (s : list cell) (t : string) :
  In (CStr t) s -> (1 <= occurrences (CStr t) s)%nat.
Proof.
  intros H. unfold occurrences.
  assert (I : In (CStr t) (filter (cell_eqb (CStr t)) s)).
  { apply filter_In. split; [assumption|]. now apply cell_eqb_str_l. }
  destruct (filter _ _); [elim I | simpl; lia].
Qed.

(** The entries of the distribution of a column of strings and nulls have
    string labels and counts of at least one. *)
Lemma value_counts_entries (s : list cell) :
  (forall c, In c s -> (exists t, c = CStr t) \/ isna c = true) ->
  Forall (fun e => string_entry e /\ (1 <= snd e)%nat) (value_counts s).
Proof.
  intros H. apply Forall_forall. intros e He.
  unfold value_counts in He. apply in_map_iff in He as (c & <- & Hc).
  apply unique_incl, dropna_In in Hc as [Hc Hn].
  destruct (H c Hc) as [[t ->] | Hna]; [|congruence].
  split; [exists t; reflexivity|]. simpl. now apply occurrences_pos.
Qed.

Lemma asarray_pos (l : list (cell * nat)) :
  Forall (fun e => (1 <= snd e)%nat) l ->
  Forall (fun x => (0 < x)%R) (asarray l).
Proof.
  unfold asarray. induction 1 as [|e l He _ IH]; simpl; constructor;
    [|assumption].
  apply lt_0_INR. lia.
Qed.


Lemma Rsum_pos (P : list R) :
  Forall (fun x => (0 < x)%R) P -> P <> [] -> (0 < Rsum P)%R.
Proof.
  unfold Rsum. induction 1 as [|p P Hp HP IH]; simpl; [congruence|].
  intros _. destruct P as [|p' P]; simpl in *; [lra|].
  assert (0 < p' + fold_right Rplus 0 P)%R by (apply IH; discriminate). lra.
Qed.


Lemma entropy_positive_self (P : list R) :
  Forall (fun x => (0 < x)%R) P -> entropy P P 2 = Some (Fin 0).
Proof.
  intros HP. destruct P as [|p P].
  - unfold entropy. simpl. do 2 f_equal. unfold Rdiv. ring.
  - apply entropy_self.
    + eapply Forall_impl; [|exact HP]. simpl. intros; lra.
    + apply Rsum_pos; [assumption | discriminate].
Qed.

(** The sorted distribution of a column of strings and nulls exists, has
    one positive count per distinct label, and nothing else. *)
Lemma sorted_distribution (data : DataFrame) :
  label_column data ->
  exists dist,
    getitem data "neighbourhood_group" =
      Some (map (fun r : Row => r "neighbourhood_group") (rows data)) /\
    sort_index (value_counts (map (fun r : Row => r "neighbourhood_group") (rows data)))
      = Some dist /\
    Forall (fun x => (0 < x)%R) (asarray dist) /\
    List.length (asarray dist) = distinct_labels data.
Proof.
  intros [I L].
  set (col := map (fun r : Row => r "neighbourhood_group") (rows data)).
  assert (E : Forall (fun e => string_entry e /\ (1 <= snd e)%nat) (value_counts col)).
  { apply value_counts_entries. intros c Hc.
    apply in_map_iff in Hc as (r & <- & Hr). auto. }
  destruct (sort_index_strings (value_counts col)) as (dist & S & Pm).
  { eapply Forall_impl; [|exact E]. simpl. tauto. }
  exists dist. split; [now apply getitem_In|]. split; [exact S|]. split.
  - apply asarray_pos. eapply Permutation_Forall; [exact Pm|].
    eapply Forall_impl; [|exact E]. simpl. tauto.
  - unfold asarray. rewrite length_map, <- (Permutation_length Pm).
    unfold value_counts, distinct_labels. now rewrite length_map.
Qed.

Lemma divergence_steps (data ref_data : DataFrame)
    (c1 c2 : list cell) (dist1 dist2 : list (cell * nat)) :
  getitem data "neighbourhood_group" = Some c1 ->
  sort_index (value_counts c1) = Some dist1 ->
  getitem ref_data "neighbourhood_group" = Some c2 ->
  sort_index (value_counts c2) = Some dist2 ->
  divergence data ref_data = entropy (asarray dist1) (asarray dist2) 2.
Proof.
  intros G1 S1 G2 S2. unfold divergence.
  rewrite G1. cbn [bind]. rewrite S1. cbn [bind].
  rewrite G2. cbn [bind]. rewrite S2. reflexivity.
Qed.


Lemma divergence_self (data : DataFrame) :
  label_column data -> divergence data data = Some (Fin 0).
Proof.
  intros L. destruct (sorted_distribution data L) as (d & G & S & P & _).
  rewrite (divergence_steps _ _ _ _ _ _ G S G S).
  now apply entropy_positive_self.
Qed.

Lemma test_similar_of_divergence (data ref_data : DataFrame) (d t : xreal) :
  divergence data ref_data = Some d ->
  test_similar_neigh_distrib data ref_data t = check (Some (xltb d t)).
Proof. intros E. unfold test_similar_neigh_distrib. now rewrite E. Qed.

Lemma xltb_Fin (d t : R) : xltb (Fin d) (Fin t) = true <-> (d < t)%R.
Proof.
  simpl. destruct (Rlt_dec d t); split; auto; discriminate.
Qed.

Lemma frame_of_label_column (rs : list Row) :
  Forall (fun r : Row => exists s, r "neighbourhood_group" = CStr s) rs ->
  label_column (frame_of rs).
Proof.
  intros H. split; [simpl; tauto|]. intros r Hr. left.
  rewrite Forall_forall in H. now apply H.
Qed.

(** C2, at the threshold. With a finite divergence [d], the similarity
    check passes for the thresholds strictly above [d] and for no other
    finite one: with the threshold equal to [d] its assertion fails. *)
Theorem similarity_fails_at_threshold (data ref_data : DataFrame) (d : R) :
  divergence data ref_data = Some (Fin d) ->
  (forall t, test_similar_neigh_distrib data ref_data (Fin t) = Passed <-> (d < t)%R) /\
  test_similar_neigh_distrib data ref_data (Fin d) = AssertionFailed.
Proof.
  intros E. split.
  - intros t. rewrite (test_similar_of_divergence _ _ _ _ E), check_Passed.
    rewrite <- xltb_Fin. split; congruence.
  - rewrite (test_similar_of_divergence _ _ _ _ E). simpl.
    destruct (Rlt_dec d d) as [H|]; [|reflexivity]. lra.
Qed.

(** C2 on a frame compared with itself under the threshold 0: the
    divergence is 0, it does not exceed the threshold, and the check
    fails. *)
Lemma similarity_fails_at_threshold_witness :
  divergence boroughs_frame boroughs_frame = Some (Fin 0) /\
  test_similar_neigh_distrib boroughs_frame boroughs_frame (Fin 0) = AssertionFailed.
Proof.
  assert (E : divergence boroughs_frame boroughs_frame = Some (Fin 0)).
  { apply divergence_self, frame_of_label_column.
    repeat constructor; eexists; reflexivity. }
  split; [exact E|].
  exact (proj2 (similarity_fails_at_threshold boroughs_frame boroughs_frame 0 E)).
Defined.





(** ** More on the cleaning step *)

Lemma mask_filter_filter {A : Type} (f : A -> bool) (l : list A) :
  mask_filter (map f l) l = filter f l.
Proof.
  induction l as [|a l IH]; simpl; [reflexivity|].
  destruct (f a); now rewrite IH.
Qed.

Lemma set_cells_Forall2 (name : string) (rs rs' : list Row) (vs : list cell) :
  set_cells name rs vs = Some rs' ->
  Forall2 (fun r r' : Row => exists v, r' = set_cell r name v) rs rs'.
Proof.
  revert vs rs'. induction rs as [|r rs IH]; intros [|v vs] rs' E;
    simpl in E; try discriminate.
  - injection E as <-. constructor.
  - destruct (set_cells name rs vs) as [t|] eqn:Et; simpl in E; [|discriminate].
    injection E as <-. constructor; eauto.
Qed.

Lemma in_boxb_set_cell (r : Row) (v : cell) :
  in_boxb (set_cell r "last_review" v) = in_boxb r.
Proof. reflexivity. Qed.

(** Filtering after a replacement of the dates selects the same rows, and
    leaves the cells of every other column as they were. *)
Lemma filter_after_dates (name : string) (rs rs' : list Row) :
  String.eqb name "last_review" = false ->
  Forall2 (fun r r' : Row => exists v, r' = set_cell r "last_review" v) rs rs' ->
  map (fun r : Row => r name) (filter in_boxb rs') =
  map (fun r : Row => r name) (filter in_boxb rs).
Proof.
  intros Hn. induction 1 as [|r r' rs rs' [v ->] _ IH]; simpl; [reflexivity|].
  rewrite in_boxb_set_cell. destruct (in_boxb r); simpl.
  - rewrite IH. f_equal. now apply set_cell_other.
  - exact IH.
Qed.

Lemma filter_filter {A : Type} (f g : A -> bool) (l : list A) :
  filter g (filter f l) = filter (fun a => f a && g a) l.
Proof.
  induction l as [|a l IH]; simpl; [reflexivity|].
  destruct (f a); simpl; [|exact IH]. destruct (g a); now rewrite IH.
Qed.

(** The frame of [go], row by row: the rows of the input that [kept]
    selects, with their dates replaced. *)
Lemma go_rows (to_datetime : list cell -> option (list cell))
    (df out : DataFrame) (min_price max_price : float) :
  go to_datetime df min_price max_price = Some out ->
  columns out = columns df /\
  exists rs',
    Forall2 (fun r r' : Row => exists v, r' = set_cell r "last_review" v)
            (filter (fun r : Row => betweenb min_price max_price (r "price")) (rows df))
            rs' /\
    rows out = filter in_boxb rs'.
Proof.
  intros E. apply go_Some in E as (converted & df' & I & S & M & ->).
  unfold setitem in S.
  destruct (set_cells _ _ converted) as [rs|] eqn:SC; simpl in S; [|discriminate].
  injection S as <-. simpl in *. split; [reflexivity|].
  rewrite mask_filter_filter in SC. exists rs. split.
  - now apply set_cells_Forall2 in SC.
  - apply mask_filter_filter.
Qed.

(** X1. The cleaning step leaves the column labels as they are, so its
    output passes the schema check exactly when its input does. *)
Theorem go_keeps_schema (to_datetime : list cell -> option (list cell))
    (df out : DataFrame) (min_price max_price : float) :
  go to_datetime df min_price max_price = Some out ->
  columns out = columns df /\
  test_column_names out = test_column_names df.
Proof.
  intros E. destruct (go_rows _ _ _ _ _ E) as [C _].
  split; [exact C|]. unfold test_column_names. now rewrite C.
Qed.

Lemma go_keeps_schema_witness :
  exists out,
    go all_NaT raw_frame 10 500 = Some out /\
    columns out = expected_colums /\
    test_column_names out = Passed.
Proof.
  destruct (go all_NaT raw_frame 10 500) as [out|] eqn:E.
  - exists out. split; [reflexivity|].
    destruct (go_keeps_schema all_NaT raw_frame out 10 500 E) as [C T].
    split; [exact C | exact T].
  - vm_compute in E. discriminate.
Defined.

(** X2. The cleaning step drops a row only for its price or its
    coordinates: in every column but the dates, the output column is the
    input column restricted to the rows with a price within the bounds and
    coordinates inside the box, in the input order; so the output has as
    many rows as the input has such rows, and never more rows than the
    input. *)
Theorem go_keeps_exactly (to_datetime : list cell -> option (list cell))
    (df out : DataFrame) (min_price max_price : float) :
  go to_datetime df min_price max_price = Some out ->
  (forall name, In name (columns df) -> name <> "last_review" ->
     getitem out name =
     Some (map (fun r : Row => r name) (filter (kept min_price max_price) (rows df)))) /\
  shape0 out = Z.of_nat (List.length (filter (kept min_price max_price) (rows df))) /\
  (shape0 out <= shape0 df)%Z.
Proof.
  intros E. destruct (go_rows _ _ _ _ _ E) as (C & rs' & F & R).
  assert (K : forall name, String.eqb name "last_review" = false ->
              map (fun r : Row => r name) (rows out) =
              map (fun r : Row => r name) (filter (kept min_price max_price) (rows df))).
  { intros name Hn. rewrite R, (filter_after_dates name _ _ Hn F).
    now rewrite filter_filter. }
  assert (L : List.length (rows out) =
              List.length (filter (kept min_price max_price) (rows df))).
  { rewrite <- (length_map (fun r : Row => r "price") (rows out)).
    rewrite (K "price" eq_refl). apply length_map. }
  split; [|split].
  - intros name I N. rewrite getitem_In by (now rewrite C).
    f_equal. apply K. now apply String.eqb_neq.
  - unfold shape0. now rewrite L.
  - unfold shape0. rewrite L.
    pose proof (filter_length_le (kept min_price max_price) (rows df)). lia.
Qed.

Lemma go_keeps_exactly_witness :
  exists out,
    go all_NaT raw_frame 10 500 = Some out /\
    getitem out "price" = Some [CNum 120] /\
    shape0 out = 1%Z.
Proof.
  destruct (go all_NaT raw_frame 10 500) as [out|] eqn:E.
  - exists out. split; [reflexivity|].
    destruct (go_keeps_exactly all_NaT raw_frame out 10 500 E) as (G & S & _).
    split.
    + apply (G "price"); [simpl; tauto | discriminate].
    + exact S.
  - vm_compute in E. discriminate.
Defined.

Lemma Forall2_In_r {A B : Type} (R : A -> B -> Prop) (l : list A) (l' : list B) (b : B) :
  Forall2 R l l' -> In b l' -> exists a, In a l /\ R a b.
Proof.
  induction 1 as [|a0 b0 l l' H0 _ IH]; simpl; [tauto|].
  intros [<- | H].
  - eauto.
  - destruct (IH H) as (a & Ha & Hr). eauto.
Qed.

Lemma go_rows_kept (to_datetime : list cell -> option (list cell))
    (df out : DataFrame) (min_price max_price : float) (r : Row) :
  go to_datetime df min_price max_price = Some out ->
  In r (rows out) -> kept min_price max_price r = true.
Proof.
  intros E Hr. destruct (go_rows _ _ _ _ _ E) as (_ & rs' & F & R).
  rewrite R in Hr. apply filter_In in Hr as [Hr Hb].
  unfold kept. rewrite Hb, andb_true_r.
  destruct (Forall2_In_r _ _ _ _ F Hr) as (r0 & H0 & v & ->).
  rewrite set_cell_other by reflexivity.
  apply filter_In in H0. apply H0.
Qed.

Lemma betweenb_true (l h : float) (c : cell) :
  betweenb l h c = true -> exists x, c = CNum x /\ within l h x.
Proof.
  destruct c as [s | x | t]; simpl; try discriminate.
  rewrite andb_true_iff. intros [A B]. exists x. unfold within. auto.
Qed.

Lemma filter_all {A : Type} (f : A -> bool) (l : list A) :
  (forall a, In a l -> f a = true) -> filter f l = l.
Proof.
  induction l as [|a l IH]; simpl; intros H; [reflexivity|].
  rewrite (H a) by auto. f_equal. apply IH. auto.
Qed.

Lemma go_column (to_datetime : list cell -> option (list cell))
    (df out : DataFrame) (min_price max_price : float) (name : string) :
  go to_datetime df min_price max_price = Some out ->
  String.eqb name "last_review" = false ->
  map (fun r : Row => r name) (rows out) =
  map (fun r : Row => r name) (filter (kept min_price max_price) (rows df)).
Proof.
  intros E Hn. destruct (go_rows _ _ _ _ _ E) as (_ & rs' & F & R).
  rewrite R, (filter_after_dates name _ _ Hn F). now rewrite filter_filter.
Qed.

(** X3. No row of the cleaned frame lacks its price, its longitude or its
    latitude: the three cells are numbers, none of them [NaN]. *)
Theorem go_drops_missing (to_datetime : list cell -> option (list cell))
    (df out : DataFrame) (min_price max_price : float) (r : Row) :
  go to_datetime df min_price max_price = Some out ->
  In r (rows out) ->
  exists p lon lat,
    r "price" = CNum p /\ r "longitude" = CNum lon /\ r "latitude" = CNum lat /\
    is_nan p = false /\ is_nan lon = false /\ is_nan lat = false.
Proof.
  intros E Hr. pose proof (go_rows_kept _ _ _ _ _ _ E Hr) as K.
  unfold kept in K. apply andb_true_iff in K as [K1 K2].
  apply betweenb_true in K1 as (p & Ep & Wp).
  apply in_boxb_in_box in K2 as (lon & lat & Eo & Ea & Wo & Wa).
  exists p, lon, lat. repeat split; eauto using within_not_nan.
Qed.

Lemma go_drops_missing_witness :
  exists out r,
    go all_NaT raw_frame 10 500 = Some out /\ In r (rows out) /\
    isna (r "price") = false /\ isna (r "longitude") = false /\
    isna (r "latitude") = false.
Proof.
  destruct (go all_NaT raw_frame 10 500) as [out|] eqn:E;
    [|vm_compute in E; discriminate].
  destruct (rows out) as [|r rs] eqn:R.
  - exfalso. vm_compute in E. injection E as <-. discriminate.
  - assert (Hr : In r (rows out)) by (rewrite R; simpl; auto).
    destruct (go_drops_missing all_NaT raw_frame out 10 500 r E Hr)
      as (p & lon & lat & Ep & Eo & Ea & Np & No & Na).
    exists out, r. rewrite Ep, Eo, Ea. simpl. auto.
Defined.

(** X4. Cleaning a cleaned frame again with the same bounds drops nothing:
    the second output has the rows of the first, cell for cell in every
    column but the dates. *)
Theorem go_twice (td td' : list cell -> option (list cell))
    (df out out' : DataFrame) (min_price max_price : float) :
  go td df min_price max_price = Some out ->
  go td' out min_price max_price = Some out' ->
  shape0 out' = shape0 out /\
  forall name, name <> "last_review" -> getitem out' name = getitem out name.
Proof.
  intros E E'.
  assert (F : filter (kept min_price max_price) (rows out) = rows out).
  { apply filter_all. intros r Hr.
    exact (go_rows_kept td df out min_price max_price r E Hr). }
  assert (K : forall name, String.eqb name "last_review" = false ->
              map (fun r : Row => r name) (rows out') =
              map (fun r : Row => r name) (rows out)).
  { intros name Hn. rewrite (go_column _ _ _ _ _ name E' Hn). now rewrite F. }
  destruct (go_rows _ _ _ _ _ E') as [C _].
  split.
  - unfold shape0. f_equal.
    rewrite <- (length_map (fun r : Row => r "price") (rows out')).
    rewrite (K "price" eq_refl). apply length_map.
  - intros name Hn. apply String.eqb_neq in Hn.
    unfold getitem. rewrite C, (K name Hn). reflexivity.
Qed.

Lemma go_twice_witness :
  exists out out',
    go all_NaT raw_frame 10 500 = Some out /\
    go all_NaT out 10 500 = Some out' /\
    shape0 out' = shape0 out.
Proof.
  destruct (go all_NaT raw_frame 10 500) as [out|] eqn:E;
    [|vm_compute in E; discriminate].
  destruct (go all_NaT out 10 500) as [out'|] eqn:E'.
  - exists out, out'. split; [reflexivity|]. split; [exact E'|].
    exact (proj1 (go_twice all_NaT all_NaT raw_frame out out' 10 500 E E')).
  - exfalso. vm_compute in E. injection E as <-. vm_compute in E'. discriminate.
Defined.

(** X5. The cleaning step raises on a frame that lacks one of the columns
    it reads, or that has a price that is not a number: when it returns a
    frame, the input has the columns price, last_review, longitude and
    latitude, and every price cell is a float. *)
Theorem go_requires (to_datetime : list cell -> option (list cell))
    (df out : DataFrame) (min_price max_price : float) :
  go to_datetime df min_price max_price = Some out ->
  In "price" (columns df) /\ In "last_review" (columns df) /\
  In "longitude" (columns df) /\ In "latitude" (columns df) /\
  forall r, In r (rows df) -> exists p, r "price" = CNum p.
Proof.
  unfold go. intros E.
  destruct (getitem df "price") as [price|] eqn:G; simpl in E; [|discriminate].
  destruct (between price min_price max_price) as [idx|] eqn:B; simpl in E;
    [|discriminate].
  destruct (getitem _ "last_review") as [lr|] eqn:GL; simpl in E; [|discriminate].
  destruct (to_datetime lr) as [converted|]; simpl in E; [|discriminate].
  destruct (setitem _ "last_review" converted) as [df'|] eqn:S; simpl in E;
    [|discriminate].
  assert (C : columns df' = columns df).
  { unfold setitem in S. destruct (set_cells _ _ _); simpl in S; [|discriminate].
    now injection S as <-. }
  destruct (getitem df' "longitude") as [lon|] eqn:GO; simpl in E; [|discriminate].
  destruct (between lon lon_min lon_max) as [a|]; simpl in E; [|discriminate].
  destruct (getitem df' "latitude") as [lat|] eqn:GA; simpl in E; [|discriminate].
  apply getitem_Some in G as [I ->]. apply between_Some in B as [_ N].
  apply getitem_Some in GL as [IL _]. apply getitem_Some in GO as [IO _].
  apply getitem_Some in GA as [IA _]. rewrite C in IO, IA.
  repeat split; try assumption. now apply Forall_map_num.
Qed.

Lemma go_requires_witness :
  exists out,
    go all_NaT raw_frame 10 500 = Some out /\
    In "price" (columns raw_frame) /\ In "last_review" (columns raw_frame).
Proof.
  destruct (go all_NaT raw_frame 10 500) as [out|] eqn:E;
    [|vm_compute in E; discriminate].
  exists out. split; [reflexivity|].
  destruct (go_requires all_NaT raw_frame out 10 500 E) as (A & B & _).
  split; [exact A | exact B].
Defined.


(** X7. With a bound that is [NaN] the cleaning step keeps no row at all. *)
Theorem go_nan_bound (to_datetime : list cell -> option (list cell))
    (df out : DataFrame) (min_price max_price : float) :
  is_nan min_price = true \/ is_nan max_price = true ->
  go to_datetime df min_price max_price = Some out ->
  rows out = [].
Proof.
  intros H E. destruct (rows out) as [|r rs] eqn:R; [reflexivity|].
  exfalso.
  assert (Hr : In r (rows out)) by (rewrite R; simpl; auto).
  pose proof (go_rows_kept _ _ _ _ _ _ E Hr) as K.
  unfold kept in K. apply andb_true_iff in K as [K _].
  apply betweenb_true in K as (p & _ & [A B]).
  destruct H as [H | H].
  - rewrite (leb_nan_l _ p H) in A. discriminate.
  - rewrite (leb_nan_r p _ H) in B. discriminate.
Qed.

Lemma go_nan_bound_witness :
  exists out, go all_NaT raw_frame nan 500 = Some out /\ rows out = [].
Proof.
  destruct (go all_NaT raw_frame nan 500) as [out|] eqn:E;
    [|vm_compute in E; discriminate].
  exists out. split; [reflexivity|].
  apply (go_nan_bound all_NaT raw_frame out nan 500); [left; reflexivity | exact E].
Defined.

(** ** More on the checks *)

Lemma outcome_eq (a b : outcome) :
  (a = Passed <-> b = Passed) -> (a = Raised <-> b = Raised) -> a = b.
Proof.
  intros [P1 P2] [R1 R2].
  destruct a, b; auto; try (now rewrite P1); try (now rewrite R1);
    try (now rewrite P2); try (now rewrite R2).
Qed.

Lemma test_proper_boundaries_Raised (data : DataFrame) :
  test_proper_boundaries data = Raised <->
  ~ (numeric_column data "longitude" /\ numeric_column data "latitude").
Proof.
  split.
  - intros E [N1 N2]. unfold test_proper_boundaries in E.
    rewrite (violations_numeric _ N1 N2) in E. simpl in E.
    destruct (rows_outside data =? 0)%Z; discriminate.
  - intros H. destruct (test_proper_boundaries data) eqn:E; [| |reflexivity].
    + apply test_proper_boundaries_Passed in E as (I1 & I2 & F).
      elim H. now apply in_box_numeric.
    + apply test_proper_boundaries_Failed in E as (N1 & N2 & _). elim H. auto.
Qed.

Lemma test_price_range_Raised (data : DataFrame) (min_price max_price : float) :
  test_price_range data min_price max_price = Raised <->
  ~ numeric_column data "price".
Proof.
  unfold test_price_range. split.
  - intros E [I N]. rewrite (getitem_In _ _ I) in E. cbn [bind] in E.
    rewrite between_numeric in E by (now apply Forall_map_num).
    cbn [bind] in E. destruct (all _); discriminate.
  - intros H.
    destruct (getitem data "price") as [price|] eqn:G; cbn [bind]; [|reflexivity].
    destruct (between price min_price max_price) as [idx|] eqn:B; cbn [bind];
      [|reflexivity].
    elim H. apply getitem_Some in G as [I ->]. apply between_Some in B as [_ N].
    split; [exact I | now apply Forall_map_num].
Qed.

Lemma checks_names_Raised_aux (data : DataFrame) :
  test_neighborhood_names data = Raised ->
  ~ In "neighbourhood_group" (columns data).
Proof.
  unfold test_neighborhood_names, getitem.
  destruct (in_dec string_dec _ _) as [I | I]; cbn [bind]; cbv zeta.
  - destruct (set_eqb _ _); discriminate.
  - auto.
Qed.

Lemma checks_raise_names (data : DataFrame) :
  test_neighborhood_names data = Raised <->
  ~ In "neighbourhood_group" (columns data).
Proof.
  split; [apply checks_names_Raised_aux|].
  intros I. unfold test_neighborhood_names, getitem.
  destruct (in_dec string_dec _ _); [contradiction | reflexivity].
Qed.

(** X8. The boundary check and the price check stop on an exception other
    than their assertion exactly when a column they read is absent or holds
    a cell that is not a float; the borough check does so exactly when its
    column is absent; the schema check and the row-count check never do. *)
Theorem checks_raise_exactly (data : DataFrame) (min_price max_price : float) :
  (test_proper_boundaries data = Raised <->
   ~ (numeric_column data "longitude" /\ numeric_column data "latitude")) /\
  (test_price_range data min_price max_price = Raised <->
   ~ numeric_column data "price") /\
  (test_neighborhood_names data = Raised <->
   ~ In "neighbourhood_group" (columns data)) /\
  test_column_names data <> Raised /\
  test_row_count data <> Raised.
Proof.
  split; [apply test_proper_boundaries_Raised|].
  split; [apply test_price_range_Raised|].
  split; [|split].
  - unfold test_neighborhood_names, getitem.
    destruct (in_dec string_dec _ _) as [I | I]; cbn [bind]; cbv zeta.
    + destruct (set_eqb _ _); simpl; split; try discriminate; tauto.
    + simpl. tauto.
  - unfold test_column_names. cbv zeta. destruct (list_eqb _ _); discriminate.
  - unfold test_row_count. destruct (_ && _); discriminate.
Qed.

Lemma filter_partition_length {A : Type} (f : A -> bool) (l : list A) :
  (List.length (filter f l) + List.length (filter (fun a => negb (f a)) l)
   = List.length l)%nat.
Proof.
  induction l as [|a l IH]; simpl; [reflexivity|].
  destruct (f a); simpl; lia.
Qed.

(** X9. Filtering a frame by the mask of the boundary check, as the
    cleaning step does, removes exactly the rows the check counts as
    violations, and the frame that remains passes the check. *)
Theorem boundary_filter_removes_violations (data : DataFrame) (idx : list bool) :
  boundaries_mask data = Some idx ->
  violations data = Some (rows_outside data) /\
  (shape0 (loc data idx) + rows_outside data = shape0 data)%Z /\
  test_proper_boundaries (loc data idx) = Passed.
Proof.
  intros M. apply boundaries_mask_Some in M as (N1 & N2 & ->).
  split; [now apply violations_numeric|]. split.
  - unfold shape0, rows_outside, loc. simpl. rewrite mask_filter_filter.
    pose proof (filter_partition_length in_boxb (rows data)). lia.
  - apply test_proper_boundaries_Passed. simpl.
    split; [apply N1|]. split; [apply N2|].
    rewrite mask_filter_filter. apply Forall_forall. intros r Hr.
    apply filter_In in Hr as [_ Hr]. now apply in_boxb_in_box.
Qed.

Lemma boundary_filter_removes_violations_witness :
  exists idx,
    boundaries_mask raw_frame = Some idx /\
    violations raw_frame = Some 2%Z /\
    shape0 (loc raw_frame idx) = 2%Z /\
    test_proper_boundaries (loc raw_frame idx) = Passed.
Proof.
  destruct (boundaries_mask raw_frame) as [idx|] eqn:M;
    [|vm_compute in M; discriminate].
  exists idx. split; [reflexivity|].
  destruct (boundary_filter_removes_violations raw_frame idx M) as (V & S & T).
  split; [exact V|]. split; [|exact T].
  assert (R : rows_outside raw_frame = 2%Z) by (vm_compute; reflexivity).
  assert (N : shape0 raw_frame = 4%Z) by reflexivity.
  lia.
Defined.

(** X10. On a frame without rows the price check and the boundary check
    pass (their columns being there), while the row-count check and the
    borough check fail their assertions. *)
Theorem checks_on_empty_frame (data : DataFrame) (min_price max_price : float) :
  rows data = [] ->
  (In "price" (columns data) ->
   test_price_range data min_price max_price = Passed) /\
  (In "longitude" (columns data) -> In "latitude" (columns data) ->
   test_proper_boundaries data = Passed) /\
  test_row_count data = AssertionFailed /\
  (In "neighbourhood_group" (columns data) ->
   test_neighborhood_names data = AssertionFailed).
Proof.
  intros R. split; [|split; [|split]].
  - intros I. apply test_price_range_Passed. rewrite R. auto.
  - intros I1 I2. apply test_proper_boundaries_Passed. rewrite R. auto.
  - unfold test_row_count, shape0. rewrite R. reflexivity.
  - intros I. apply test_neighborhood_names_not_Raised; [exact I|].
    intros P. apply test_neighborhood_names_Passed in P as (_ & A & _).
    destruct (proj1 (A "Bronx")) as (r & Hr & _); [simpl; auto|].
    rewrite R in Hr. elim Hr.
Qed.

Lemma checks_on_empty_frame_witness :
  test_price_range (frame_of []) 10 500 = Passed /\
  test_proper_boundaries (frame_of []) = Passed /\
  test_row_count (frame_of []) = AssertionFailed /\
  test_neighborhood_names (frame_of []) = AssertionFailed.
Proof.
  destruct (checks_on_empty_frame (frame_of []) 10 500 eq_refl) as (A & B & C & D).
  split; [apply A; simpl; tauto|].
  split; [apply B; simpl; tauto|].
  split; [exact C|]. apply D. simpl. tauto.
Defined.

(** X11. On a frame that passes the schema check no other check stops on a
    missing column: the borough check passes or fails its assertion, and
    the price check and the boundary check raise only for a cell that is
    not a float. *)
Theorem schema_guards_columns (data : DataFrame) (min_price max_price : float) :
  test_column_names data = Passed ->
  test_neighborhood_names data <> Raised /\
  ((forall r, In r (rows data) -> exists x, r "price" = CNum x) ->
   test_price_range data min_price max_price <> Raised) /\
  ((forall r, In r (rows data) ->
      (exists x, r "longitude" = CNum x) /\ (exists y, r "latitude" = CNum y)) ->
   test_proper_boundaries data <> Raised).
Proof.
  intros P. unfold test_column_names in P. cbv zeta in P.
  apply check_Passed in P.
  assert (C : columns data = expected_colums)
    by (symmetry; apply list_eqb_eq; congruence).
  assert (I : forall name, In name expected_colums -> In name (columns data))
    by (now rewrite C).
  split; [|split].
  - intros E. apply checks_names_Raised_aux in E. apply E, I. simpl. tauto.
  - intros N E. apply test_price_range_Raised in E. apply E.
    split; [apply I; simpl; tauto | exact N].
  - intros N E. apply test_proper_boundaries_Raised in E. apply E.
    split; (split; [apply I; simpl; tauto|]); intros r Hr; apply (N r Hr).
Qed.

Lemma schema_guards_columns_witness :
  test_column_names priced_frame = Passed /\
  test_neighborhood_names priced_frame <> Raised /\
  test_price_range priced_frame 10 500 <> Raised.
Proof.
  assert (P : test_column_names priced_frame = Passed) by reflexivity.
  destruct (schema_guards_columns priced_frame 10 500 P) as (A & B & _).
  split; [exact P|]. split; [exact A|]. apply B.
  intros r Hr. simpl in Hr.
  destruct Hr as [<- | [<- | []]]; eexists; reflexivity.
Defined.

Lemma numeric_column_same_rows (d1 d2 : DataFrame) (name : string) :
  columns d1 = columns d2 ->
  (forall r, In r (rows d1) <-> In r (rows d2)) ->
  numeric_column d1 name -> numeric_column d2 name.
Proof.
  intros C S [I N]. split; [now rewrite <- C|].
  intros r Hr. apply N, S, Hr.
Qed.

Lemma Forall_same_rows {A : Type} (P : A -> Prop) (l1 l2 : list A) :
  (forall a, In a l1 <-> In a l2) -> Forall P l1 -> Forall P l2.
Proof.
  intros S F. rewrite Forall_forall in *. intros a Ha. apply F, S, Ha.
Qed.

(** The three checks on cell values see a frame only through its column
    labels and the set of its rows. *)
Lemma value_checks_same_rows (d1 d2 : DataFrame) (min_price max_price : float) :
  columns d1 = columns d2 ->
  (forall r, In r (rows d1) <-> In r (rows d2)) ->
  test_price_range d1 min_price max_price = test_price_range d2 min_price max_price /\
  test_proper_boundaries d1 = test_proper_boundaries d2 /\
  test_neighborhood_names d1 = test_neighborhood_names d2.
Proof.
  intros C S.
  assert (S' : forall r, In r (rows d2) <-> In r (rows d1))
    by (intros r; symmetry; apply S).
  assert (NC : forall name, numeric_column d1 name <-> numeric_column d2 name).
  { intros name. split; apply numeric_column_same_rows; auto. }
  assert (FA : forall P : Row -> Prop, Forall P (rows d1) <-> Forall P (rows d2)).
  { intros P. split; apply Forall_same_rows; auto. }
  assert (LP : forall s, label_present d1 s <-> label_present d2 s).
  { intros s. unfold label_present.
    split; intros (r & Hr & E); exists r; (split; [|exact E]); now apply S. }
  split; [|split]; apply outcome_eq.
  - rewrite !test_price_range_Passed, C, FA. reflexivity.
  - rewrite !test_price_range_Raised, NC. reflexivity.
  - rewrite !test_proper_boundaries_Passed, C, FA. reflexivity.
  - rewrite !test_proper_boundaries_Raised, !NC. reflexivity.
  - rewrite !test_neighborhood_names_Passed, C.
    split; intros (I & A & B); (split; [exact I|]); split.
    + intros s. rewrite (A s). apply LP.
    + intros r Hr. apply B. now apply S.
    + intros s. rewrite (A s). symmetry. apply LP.
    + intros r Hr. apply B. now apply S.
  - pose proof (checks_raise_names d1) as R1.
    pose proof (checks_raise_names d2) as R2.
    rewrite R1, R2, C. reflexivity.
Qed.

(** X12. The order of the rows does not matter to the checks: two frames
    with the same column labels whose rows are a rearrangement of one
    another get the same outcome from the price check, the boundary check,
    the borough check and the row-count check. *)
Theorem checks_ignore_row_order (d1 d2 : DataFrame) (min_price max_price : float) :
  columns d1 = columns d2 ->
  Permutation (rows d1) (rows d2) ->
  test_price_range d1 min_price max_price = test_price_range d2 min_price max_price /\
  test_proper_boundaries d1 = test_proper_boundaries d2 /\
  test_neighborhood_names d1 = test_neighborhood_names d2 /\
  test_row_count d1 = test_row_count d2.
Proof.
  intros C Pm.
  destruct (value_checks_same_rows d1 d2 min_price max_price C) as (A & B & D).
  { intros r. split; apply Permutation_in; [exact Pm | now symmetry]. }
  repeat split; try assumption.
  unfold test_row_count, shape0. now rewrite (Permutation_length Pm).
Qed.

Lemma checks_ignore_row_order_witness :
  test_price_range (frame_of (rev (rows raw_frame))) 10 500
    = test_price_range raw_frame 10 500 /\
  test_proper_boundaries (frame_of (rev (rows raw_frame)))
    = test_proper_boundaries raw_frame.
Proof.
  destruct (checks_ignore_row_order (frame_of (rev (rows raw_frame))) raw_frame
              10 500 eq_refl) as (A & B & _).
  - simpl rows. symmetry. apply Permutation_rev.
  - split; [exact A | exact B].
Defined.

(** X13. With a bound that is [NaN] the price check passes on a frame
    without rows only. *)
Theorem price_range_nan_bound (data : DataFrame) (min_price max_price : float) :
  is_nan min_price = true \/ is_nan max_price = true ->
  (test_price_range data min_price max_price = Passed <->
   In "price" (columns data) /\ rows data = []).
Proof.
  intros H. rewrite test_price_range_Passed. split; intros [I F]; split; auto.
  - destruct (rows data) as [|r rs]; [reflexivity|]. exfalso.
    inversion F as [|? ? (p & _ & [A B]) _]; subst.
    destruct H as [H | H].
    + rewrite (leb_nan_l _ p H) in A. discriminate.
    + rewrite (leb_nan_r p _ H) in B. discriminate.
  - rewrite F. constructor.
Qed.

Lemma price_range_nan_bound_witness :
  test_price_range priced_frame nan 500 <> Passed.
Proof.
  intros P.
  apply (price_range_nan_bound priced_frame nan 500) in P; [|left; reflexivity].
  destruct P as [_ R]. discriminate R.
Defined.

(** ** More on the similarity check *)



(** X15. A frame compared with itself has divergence 0, so the similarity
    check passes on it exactly for the thresholds above zero. *)
Theorem similarity_with_itself (data : DataFrame) :
  label_column data ->
  divergence data data = Some (Fin 0) /\
  forall t, test_similar_neigh_distrib data data (Fin t) = Passed <-> (0 < t)%R.
Proof.
  intros L. pose proof (divergence_self data L) as E.
  split; [exact E|]. intros t.
  rewrite (test_similar_of_divergence _ _ _ _ E), check_Passed, <- xltb_Fin.
  split; congruence.
Qed.

Lemma similarity_with_itself_witness :
  test_similar_neigh_distrib boroughs_frame boroughs_frame (Fin (1/5)) = Passed.
Proof.
  destruct (similarity_with_itself boroughs_frame) as [_ T].
  - apply frame_of_label_column. repeat constructor; eexists; reflexivity.
  - apply T. lra.
Defined.

Lemma eqb_true_not_nan (x y : float) :
  PrimFloat.eqb x y = true -> is_nan x = false /\ is_nan y = false.
Proof.
  rewrite FloatAxioms.eqb_spec. unfold SFeqb. intros H. split.
  - destruct (is_nan x) eqn:E; [|reflexivity].
    apply is_nan_spec in E. rewrite E in H. discriminate.
  - destruct (is_nan y) eqn:E; [|reflexivity].
    apply is_nan_spec in E. rewrite E in H.
    destruct (Prim2SF x); discriminate.
Qed.

Lemma cell_eqb_isna (c d : cell) : cell_eqb c d = true -> isna d = isna c.
Proof.
  destruct c as [s | x | [i|]], d as [t | y | [j|]]; simpl; try discriminate;
    try reflexivity.
  intros H. apply orb_true_iff in H as [H | H].
  - apply eqb_true_not_nan in H as [-> ->]. reflexivity.
  - apply andb_true_iff in H as [-> ->]. reflexivity.
Qed.

Lemma occurrences_dropna (c : cell) (s : list cell) :
  isna c = false -> occurrences c (dropna s) = occurrences c s.
Proof.
  intros Hc. unfold occurrences, dropna. rewrite filter_filter. f_equal.
  apply filter_ext. intros d. destruct (cell_eqb c d) eqn:E.
  - apply cell_eqb_isna in E. now rewrite E, Hc.
  - apply andb_false_r.
Qed.

Lemma dropna_idem (s : list cell) : dropna (dropna s) = dropna s.
Proof.
  unfold dropna. rewrite filter_filter. apply filter_ext.
  intros d. now destruct (isna d).
Qed.

(** The distribution of a column is that of its non-null cells. *)
Lemma value_counts_dropna (s : list cell) :
  value_counts s = value_counts (dropna s).
Proof.
  unfold value_counts. rewrite dropna_idem. apply map_ext_in.
  intros c Hc. apply unique_incl, dropna_In in Hc as [_ Hc].
  now rewrite occurrences_dropna.
Qed.

(** X16. Rows whose borough is null do not count in the similarity check:
    two frames whose borough columns agree once the nulls are dropped have
    the same divergence from, and to, any other frame, and get the same
    outcome.  (The borough check, for its part, fails on a null.) *)
Theorem similarity_ignores_nulls (d1 d2 other : DataFrame) (kl_threshold : xreal) :
  In "neighbourhood_group" (columns d1) ->
  In "neighbourhood_group" (columns d2) ->
  dropna (map (fun r : Row => r "neighbourhood_group") (rows d1)) =
  dropna (map (fun r : Row => r "neighbourhood_group") (rows d2)) ->
  divergence d1 other = divergence d2 other /\
  divergence other d1 = divergence other d2 /\
  test_similar_neigh_distrib d1 other kl_threshold =
  test_similar_neigh_distrib d2 other kl_threshold /\
  test_similar_neigh_distrib other d1 kl_threshold =
  test_similar_neigh_distrib other d2 kl_threshold.
Proof.
  intros I1 I2 E.
  assert (V : value_counts (map (fun r : Row => r "neighbourhood_group") (rows d1)) =
              value_counts (map (fun r : Row => r "neighbourhood_group") (rows d2))).
  { rewrite value_counts_dropna, E, <- value_counts_dropna. reflexivity. }
  assert (A : divergence d1 other = divergence d2 other).
  { unfold divergence. rewrite (getitem_In _ _ I1), (getitem_In _ _ I2).
    cbn [bind]. now rewrite V. }
  assert (B : divergence other d1 = divergence other d2).
  { unfold divergence. rewrite (getitem_In _ _ I1), (getitem_In _ _ I2).
    destruct (getitem other _); cbn [bind]; [|reflexivity].
    destruct (sort_index _); cbn [bind]; [|reflexivity]. now rewrite V. }
  unfold test_similar_neigh_distrib. rewrite A, B. auto.
Qed.

Lemma similarity_ignores_nulls_witness :
  divergence boroughs_and_null_frame boroughs_frame =
  divergence boroughs_frame boroughs_frame /\
  test_neighborhood_names boroughs_and_null_frame <>
  test_neighborhood_names boroughs_frame.
Proof.
  split.
  - apply (similarity_ignores_nulls boroughs_and_null_frame boroughs_frame
             boroughs_frame NaN).
    + simpl. tauto.
    + simpl. tauto.
    + vm_compute. reflexivity.
  - vm_compute. discriminate.
Defined.

(** ** Replicated frames *)

Lemma cell_eqb_refl (c : cell) : cell_eqb c c = true.
Proof.
  destruct c as [s | x | [i|]]; simpl.
  - apply String.eqb_refl.
  - unfold is_nan. destruct (PrimFloat.eqb x x); reflexivity.
  - apply Z.eqb_refl.
  - reflexivity.
Qed.

Lemma map_replicate {A B : Type} (f : A -> B) (k : nat) (l : list A) :
  map f (replicate k l) = replicate k (map f l).
Proof. induction k as [|k IH]; simpl; [reflexivity|]. now rewrite map_app, IH. Qed.

Lemma filter_replicate {A : Type} (f : A -> bool) (k : nat) (l : list A) :
  filter f (replicate k l) = replicate k (filter f l).
Proof. induction k as [|k IH]; simpl; [reflexivity|]. now rewrite filter_app, IH. Qed.

Lemma length_replicate {A : Type} (k : nat) (l : list A) :
  List.length (replicate k l) = (k * List.length l)%nat.
Proof. induction k as [|k IH]; simpl; [reflexivity|]. rewrite length_app, IH. lia. Qed.

Lemma In_replicate {A : Type} (k : nat) (l : list A) (a : A) :
  In a (replicate k l) -> In a l.
Proof.
  induction k as [|k IH]; simpl; [tauto|].
  intros H. apply in_app_or in H as [H | H]; auto.
Qed.

Lemma filter_none {A : Type} (f : A -> bool) (l : list A) :
  (forall a, In a l -> f a = false) -> filter f l = [].
Proof.
  induction l as [|a l IH]; simpl; intros H; [reflexivity|].
  rewrite (H a) by auto. apply IH. auto.
Qed.

(** The distinct values of two lists one after the other: those of the
    first, then those of the second that the first does not have. *)
Lemma unique_app (a b : list cell) :
  unique (a ++ b) = unique a ++ filter (notin a) (unique b).
Proof.
  induction a as [|c a IH]; simpl.
  - symmetry. apply filter_all. reflexivity.
  - rewrite IH, filter_app, filter_filter. do 2 f_equal.
    apply filter_ext. intros d. apply andb_comm.
Qed.

Lemma unique_replicate (k : nat) (s : list cell) :
  unique (replicate (S k) s) = unique s.
Proof.
  simpl. rewrite unique_app. rewrite filter_none; [apply app_nil_r|].
  intros d Hd. apply unique_incl, In_replicate in Hd.
  unfold notin. apply not_true_is_false. intros F.
  rewrite forallb_forall in F. specialize (F d Hd).
  now rewrite cell_eqb_refl in F.
Qed.

Lemma value_counts_replicate (k : nat) (s : list cell) :
  value_counts (replicate (S k) s) = map (scale_entry (S k)) (value_counts s).
Proof.
  unfold value_counts, dropna.
  rewrite filter_replicate, unique_replicate, map_map.
  apply map_ext. intros c. unfold scale_entry, occurrences. simpl fst. simpl snd.
  f_equal. now rewrite filter_replicate, length_replicate.
Qed.

Lemma insert_entry_scale (k : nat) (e : cell * nat) (l : list (cell * nat)) :
  insert_entry (scale_entry k e) (map (scale_entry k) l) =
  option_map (map (scale_entry k)) (insert_entry e l).
Proof.
  induction l as [|f l IH]; simpl; [reflexivity|].
  destruct (cell_leb (fst e) (fst f)) as [[|]|]; simpl; try reflexivity.
  rewrite IH. destruct (insert_entry e l); reflexivity.
Qed.

Lemma sort_index_scale (k : nat) (l : list (cell * nat)) :
  sort_index (map (scale_entry k) l) =
  option_map (map (scale_entry k)) (sort_index l).
Proof.
  induction l as [|e l IH]; simpl; [reflexivity|].
  rewrite IH. destruct (sort_index l) as [t|]; simpl; [|reflexivity].
  apply insert_entry_scale.
Qed.

Lemma asarray_scale (k : nat) (l : list (cell * nat)) :
  asarray (map (scale_entry k) l) = map (Rmult (INR k)) (asarray l).
Proof.
  unfold asarray. rewrite !map_map. apply map_ext.
  intros e. simpl. apply mult_INR.
Qed.

Section Scaling.
Local Open Scope R_scope.

Lemma Rsum_mult (k : R) (v : list R) : Rsum (map (Rmult k) v) = k * Rsum v.
Proof.
  unfold Rsum. induction v as [|x v IH]; simpl; [ring|]. rewrite IH. ring.
Qed.

Lemma xdiv_mult (k x s : R) : 0 < k -> xdiv (k * x) (k * s) = xdiv x s.
Proof.
  intros Hk. unfold xdiv.
  destruct (Req_dec_T s 0) as [Zs | Ns].
  - subst s. rewrite Rmult_0_r.
    destruct (Req_dec_T 0 0) as [_ | N]; [|now elim N].
    destruct (Req_dec_T x 0) as [Zx | Nx].
    + subst x. rewrite Rmult_0_r.
      destruct (Req_dec_T 0 0) as [_ | N]; [reflexivity | now elim N].
    + destruct (Req_dec_T (k * x) 0) as [Z | _].
      * apply Rmult_integral in Z as [Z | Z]; [lra | contradiction].
      * destruct (Rlt_dec 0 x) as [Px | Npx].
        -- destruct (Rlt_dec 0 (k * x)) as [_ | N]; [reflexivity|].
           elim N. now apply Rmult_lt_0_compat.
        -- destruct (Rlt_dec 0 (k * x)) as [P | _]; [|reflexivity].
           elim Npx. nra.
  - destruct (Req_dec_T (k * s) 0) as [Z | _].
    + apply Rmult_integral in Z as [Z | Z]; [lra | contradiction].
    + f_equal. field. split; lra.
Qed.

(** The estimator does its own normalisation: multiplying all entries of a
    vector by one positive factor changes nothing. *)
Lemma normalize_mult (k : R) (v : list R) :
  0 < k -> normalize (map (Rmult k) v) = normalize v.
Proof.
  intros Hk. unfold normalize. rewrite Rsum_mult, map_map.
  apply map_ext. intros x. now apply xdiv_mult.
Qed.

Lemma broadcast_arrays_map {A : Type} (f : R -> R) (a : list A) (b : list R) :
  broadcast_arrays a (map f b) =
  option_map (fun pq => (fst pq, map f (snd pq))) (broadcast_arrays a b).
Proof.
  unfold broadcast_arrays. rewrite length_map.
  destruct (List.length a =? List.length b)%nat; [reflexivity|].
  destruct a as [|x [|x' a]], b as [|y [|y' b]]; simpl; try reflexivity;
    rewrite ?length_map, ?map_repeat; reflexivity.
Qed.

Lemma entropy_scale (k m : R) (P Q : list R) (base : R) :
  0 < k -> 0 < m ->
  entropy (map (Rmult k) P) (map (Rmult m) Q) base = entropy P Q base.
Proof.
  intros Hk Hm. unfold entropy.
  rewrite (normalize_mult k P Hk), broadcast_arrays_map.
  destruct (broadcast_arrays (normalize P) Q) as [[p q]|]; simpl; [|reflexivity].
  now rewrite (normalize_mult m q Hm).
Qed.

End Scaling.

Lemma entropy_scale_l (k : R) (P Q : list R) (base : R) :
  (0 < k)%R -> entropy (map (Rmult k) P) Q base = entropy P Q base.
Proof.
  intros Hk.
  assert (E : map (Rmult 1) Q = Q).
  { rewrite <- (map_id Q) at 2. apply map_ext. intros x. ring. }
  rewrite <- (entropy_scale k 1 P Q base Hk Rlt_0_1). now rewrite E.
Qed.

Lemma entropy_scale_r (k : R) (P Q : list R) (base : R) :
  (0 < k)%R -> entropy P (map (Rmult k) Q) base = entropy P Q base.
Proof.
  intros Hk.
  assert (E : map (Rmult 1) P = P).
  { rewrite <- (map_id P) at 2. apply map_ext. intros x. ring. }
  rewrite <- (entropy_scale 1 k P Q base Rlt_0_1 Hk). now rewrite E.
Qed.

(** X17. The similarity check compares frequencies, not counts: a frame
    whose rows are [k] copies (one at least) of the rows of another has the
    same divergence from, and to, any frame, and gets the same outcome. *)
Theorem similarity_ignores_sample_size (k : nat) (data other : DataFrame)
    (kl_threshold : xreal) :
  divergence (replicated (S k) data) other = divergence data other /\
  divergence other (replicated (S k) data) = divergence other data /\
  test_similar_neigh_distrib (replicated (S k) data) other kl_threshold =
  test_similar_neigh_distrib data other kl_threshold /\
  test_similar_neigh_distrib other (replicated (S k) data) kl_threshold =
  test_similar_neigh_distrib other data kl_threshold.
Proof.
  assert (K : (0 < INR (S k))%R) by (apply lt_0_INR; lia).
  assert (A : divergence (replicated (S k) data) other = divergence data other).
  { unfold divergence, getitem at 1 3, replicated. cbn [columns rows].
    destruct (in_dec string_dec _ _); cbn [bind]; [|reflexivity].
    rewrite map_replicate, value_counts_replicate, sort_index_scale.
    destruct (sort_index _) as [d|]; cbn [bind option_map]; [|reflexivity].
    destruct (getitem other _); cbn [bind]; [|reflexivity].
    destruct (sort_index _) as [d'|]; cbn [bind]; [|reflexivity].
    rewrite asarray_scale. now apply entropy_scale_l. }
  assert (B : divergence other (replicated (S k) data) = divergence other data).
  { unfold divergence.
    destruct (getitem other _); cbn [bind]; [|reflexivity].
    destruct (sort_index _) as [d'|]; cbn [bind]; [|reflexivity].
    unfold getitem, replicated. cbn [columns rows].
    destruct (in_dec string_dec _ _); cbn [bind]; [|reflexivity].
    rewrite map_replicate, value_counts_replicate, sort_index_scale.
    destruct (sort_index _) as [d|]; cbn [bind option_map]; [|reflexivity].
    rewrite asarray_scale. now apply entropy_scale_r. }
  unfold test_similar_neigh_distrib. rewrite A, B. auto.
Qed.

(** ** The order of floats *)

Lemma SFleb_key (f g : spec_float) :
  f <> S754_nan -> g <> S754_nan ->
  (SFleb f g = true <-> key_le (sf_key f) (sf_key g)).
Proof.
  intros Hf Hg. unfold SFleb.
  destruct f as [s | [|] | | [|] m e]; try (now elim Hf);
    destruct g as [t | [|] | | [|] n e']; try (now elim Hg);
    cbn [SFcompare sf_key key_le];
    try (split; [intros _; lia | reflexivity]);
    try (split; [discriminate | intros H; exfalso; lia]).
  - change (Pos.compare_cont Eq m n) with (Pos.compare m n).
    destruct (Z.compare_spec e e') as [E | E | E];
      [destruct (Pos.compare_spec m n) as [M | M | M]| |]; cbn;
      (split; [intros H; try discriminate; lia | intros H; try reflexivity; exfalso; lia]).
  - change (Pos.compare_cont Eq m n) with (Pos.compare m n).
    destruct (Z.compare_spec e e') as [E | E | E];
      [destruct (Pos.compare_spec m n) as [M | M | M]| |]; cbn;
      (split; [intros H; try discriminate; lia | intros H; try reflexivity; exfalso; lia]).
Qed.

Lemma key_le_trans (a b c : Z * Z * Z) : key_le a b -> key_le b c -> key_le a c.
Proof.
  destruct a as [[a1 a2] a3], b as [[b1 b2] b3], c as [[c1 c2] c3].
  unfold key_le. lia.
Qed.

Lemma not_nan_spec (x : float) : is_nan x = false -> Prim2SF x <> S754_nan.
Proof. intros H E. apply is_nan_spec in E. congruence. Qed.

(** [<=] on floats is transitive. *)
Lemma leb_trans (x y z : float) :
  PrimFloat.leb x y = true -> PrimFloat.leb y z = true -> PrimFloat.leb x z = true.
Proof.
  intros A B.
  destruct (leb_true_not_nan _ _ A) as [Nx Ny].
  destruct (leb_true_not_nan _ _ B) as [_ Nz].
  apply not_nan_spec in Nx, Ny, Nz.
  rewrite FloatAxioms.leb_spec in *.
  apply SFleb_key in A, B; try assumption.
  apply SFleb_key; try assumption.
  eapply key_le_trans; eassumption.
Qed.

Lemma within_widen (l h l' h' x : float) :
  PrimFloat.leb l' l = true -> PrimFloat.leb h h' = true ->
  within l h x -> within l' h' x.
Proof.
  intros A B [C D]. split; eapply leb_trans; eassumption.
Qed.

(** X18. Widening the price range never turns a pass into a failure: a
    frame that passes the price check for some bounds passes it for every
    lower minimum and higher maximum. *)
Theorem price_range_widen (data : DataFrame) (min_price max_price lo hi : float) :
  PrimFloat.leb lo min_price = true ->
  PrimFloat.leb max_price hi = true ->
  test_price_range data min_price max_price = Passed ->
  test_price_range data lo hi = Passed.
Proof.
  intros A B P. apply test_price_range_Passed in P as [I F].
  apply test_price_range_Passed. split; [exact I|].
  eapply Forall_impl; [|exact F].
  intros r (p & E & W). exists p. split; [exact E|].
  eapply within_widen; eassumption.
Qed.

Lemma price_range_widen_witness :
  test_price_range priced_frame 5 1000 = Passed.
Proof.
  apply (price_range_widen priced_frame 10 500 5 1000); reflexivity.
Defined.

Lemma filter_length_mono {A : Type} (f g : A -> bool) (l : list A) :
  (forall a, f a = true -> g a = true) ->
  (List.length (filter f l) <= List.length (filter g l))%nat.
Proof.
  intros H. induction l as [|a l IH]; simpl; [lia|].
  destruct (f a) eqn:E.
  - rewrite (H a E). simpl. lia.
  - destruct (g a); simpl; lia.
Qed.

Lemma kept_widen (l h l' h' : float) (r : Row) :
  PrimFloat.leb l' l = true -> PrimFloat.leb h h' = true ->
  kept l h r = true -> kept l' h' r = true.
Proof.
  intros A B. unfold kept. rewrite !andb_true_iff. intros [K1 K2].
  split; [|exact K2].
  apply betweenb_true in K1 as (p & E & W). rewrite E. simpl.
  destruct (within_widen _ _ _ _ _ A B W) as [C D]. now rewrite C, D.
Qed.

Lemma go_shape (to_datetime : list cell -> option (list cell))
    (df out : DataFrame) (min_price max_price : float) :
  go to_datetime df min_price max_price = Some out ->
  List.length (rows out) =
  List.length (filter (kept min_price max_price) (rows df)).
Proof.
  intros E.
  rewrite <- (length_map (fun r : Row => r "price") (rows out)).
  rewrite (go_column _ _ _ _ _ "price" E eq_refl). apply length_map.
Qed.

(** X19. Cleaning with a wider price range keeps at least as many rows. *)
Theorem go_widen (td td' : list cell -> option (list cell))
    (df out out' : DataFrame) (min_price max_price lo hi : float) :
  PrimFloat.leb lo min_price = true ->
  PrimFloat.leb max_price hi = true ->
  go td df min_price max_price = Some out ->
  go td' df lo hi = Some out' ->
  (shape0 out <= shape0 out')%Z.
Proof.
  intros A B E E'. unfold shape0.
  rewrite (go_shape _ _ _ _ _ E), (go_shape _ _ _ _ _ E').
  apply inj_le, filter_length_mono. intros r. now apply kept_widen.
Qed.

Lemma go_widen_witness :
  exists out out',
    go all_NaT raw_frame 10 500 = Some out /\
    go all_NaT raw_frame 10 10000 = Some out' /\
    (shape0 out <= shape0 out')%Z.
Proof.
  destruct (go all_NaT raw_frame 10 500) as [out|] eqn:E;
    [|vm_compute in E; discriminate].
  destruct (go all_NaT raw_frame 10 10000) as [out'|] eqn:E';
    [|vm_compute in E'; discriminate].
  exists out, out'. split; [reflexivity|]. split; [reflexivity|].
  apply (go_widen all_NaT all_NaT raw_frame out out' 10 500 10 10000);
    [reflexivity | reflexivity | exact E | exact E'].
Defined.
